(** * XLog: profile manager and Yandex.Disk client

    A shallow embedding of [source/yadisk_client.py] and
    [source/profile_manager.py], and the properties of the two classes
    [YandexDiskClient] and [ProfileManager].

    Python values are modelled as follows.
    - [str] is a list of Unicode code points, [bytes] a list of [byte].
    - An operation that can raise returns a [result]; an operation that
      talks to the disk, the clock or another collaborator is a state
      transformer over a world [W] that returns a [result].
    - A [dict] with string keys is a [gmap str _].
    - Calls to the logger only write to the log and are left out. *)

From Stdlib Require Import ZArith NArith List Strings.String Strings.Ascii Strings.Byte Lia Bool.
From stdpp Require Import base option list gmap.

Local Open Scope N_scope.

(** ** Python text *)

Module Py.

Definition char := N.
Definition str := list char.
Definition bytes := list byte.

Definition byte_of (n : N) : byte :=
  match Byte.of_N n with Some b => b | None => x00 end.

(** [bool(s)] of a string *)
Definition truthy (s : str) : bool :=
  match s with [] => false | _ => true end.

(** [bool(o)] of an [Optional[str]] *)
Definition truthy_opt (o : option str) : bool :=
  match o with Some s => truthy s | None => false end.

Fixpoint str_eqb (a b : str) : bool :=
  match a, b with
  | [], [] => true
  | x :: a', y :: b' => (x =? y) && str_eqb a' b'
  | _, _ => false
  end.

(** [s.startswith(p)] *)
Fixpoint startswith (p s : str) : bool :=
  match p, s with
  | [], _ => true
  | x :: p', y :: s' => (x =? y) && startswith p' s'
  | _ :: _, [] => false
  end.

(** [s.endswith(p)] *)
Definition endswith (p s : str) : bool := startswith (rev p) (rev s).

(** [sep.join(parts)] *)
Fixpoint join (sep : str) (parts : list str) : str :=
  match parts with
  | [] => []
  | [p] => p
  | p :: rest => p ++ sep ++ join sep rest
  end.

(** [s.split(c)] for a separator [c] of one character: the pieces between
    the occurrences of [c], never an empty list. *)
Fixpoint split (c : char) (s : str) : list str :=
  match s with
  | [] => [[]]
  | x :: s' =>
      if x =? c then [] :: split c s'
      else match split c s' with
           | [] => [[x]]
           | p :: ps => (x :: p) :: ps
           end
  end.

(** [s.replace(old, new)], scanning from the left; [skip] counts the
    characters of a match that are still to be passed over. *)
Fixpoint replace_from (old new : str) (skip : nat) (s : str) : str :=
  match s with
  | [] => []
  | x :: s' =>
      match skip with
      | S k => replace_from old new k s'
      | O =>
          if startswith old s
          then new ++ replace_from old new (Nat.pred (length old)) s'
          else x :: replace_from old new O s'
      end
  end.

Definition replace (old new s : str) : str :=
  match old with
  | [] => s   (* not used by the program *)
  | _ => replace_from old new O s
  end.

(** [str.isspace] of one character *)
Definition isspace (c : char) : bool :=
  ((9 <=? c) && (c <=? 13)) || ((28 <=? c) && (c <=? 32))
  || (c =? 0x85) || (c =? 0xA0) || (c =? 0x1680)
  || ((0x2000 <=? c) && (c <=? 0x200A))
  || (c =? 0x2028) || (c =? 0x2029) || (c =? 0x202F)
  || (c =? 0x205F) || (c =? 0x3000).

Fixpoint lstrip (s : str) : str :=
  match s with
  | [] => []
  | x :: s' => if isspace x then lstrip s' else s
  end.

Definition rstrip (s : str) : str := rev (lstrip (rev s)).

(** [s.strip()] *)
Definition strip (s : str) : str := rstrip (lstrip s).

(** [str.lower] on the ASCII range. Code points outside it are left as
    they are: none of them lowers to a character of ['.docx'], the only
    text the program compares a lowered string with. *)
Definition lower_char (c : char) : char :=
  if (65 <=? c) && (c <=? 90) then c + 32 else c.

Definition lower (s : str) : str := map lower_char s.

(** [l[start:]] for a list, [start] possibly negative *)
Definition slice_from {A} (start : Z) (l : list A) : list A :=
  let len := Z.of_nat (length l) in
  let i := if (start <? 0)%Z then Z.max 0 (start + len) else Z.min start len in
  drop (Z.to_nat i) l.

(** [l[:-1]] *)
Definition but_last {A} (l : list A) : list A := removelast l.

(** Decimal digits of a number, zero-padded to [width] places at least. *)
Fixpoint digits_rev (fuel : nat) (n : N) : list char :=
  match fuel with
  | O => []
  | S f => (48 + n mod 10) :: (if n <? 10 then [] else digits_rev f (n / 10))
  end.

Definition decimal (n : N) : str := rev (digits_rev (S (N.to_nat (N.log2 n))) n).

Definition zero_pad (width : nat) (s : str) : str :=
  repeat 48 (width - length s)%nat ++ s.

End Py.

Export Py.

(** ** Exceptions and results *)

Inductive exn : Type :=
  | ValueError
  | TypeError
  | UnicodeDecodeError
  | UnicodeEncodeError
  | LibraryError (code : nat).   (* raised by yadisk, python-docx, charset_normalizer *)

Inductive result (A : Type) : Type :=
  | Ok (a : A)
  | Raise (e : exn).

Arguments Ok {A} a.
Arguments Raise {A} e.

(** ** Python's codecs

    [bytes.decode] and the text-mode [write] of the interpreter, for the
    encodings the program names. *)

Module Codecs.

Inductive errors : Type := Strict | Ignore | Replace.

Definition is_cont (b : byte) : bool :=
  let n := Byte.to_N b in (0x80 <=? n) && (n <=? 0xBF).

Definition low6 (b : byte) : N := Byte.to_N b - 0x80.

(** Second byte of a three-byte sequence: [E0] needs [A0..BF] (no overlong
    form), [ED] needs [80..9F] (no surrogate). *)
Definition second_of_3 (n1 : N) (b2 : byte) : bool :=
  let n2 := Byte.to_N b2 in
  is_cont b2 &&
  (if n1 =? 0xE0 then 0xA0 <=? n2 else if n1 =? 0xED then n2 <=? 0x9F else true).

(** Second byte of a four-byte sequence: [F0] needs [90..BF], [F4] needs
    [80..8F]. *)
Definition second_of_4 (n1 : N) (b2 : byte) : bool :=
  let n2 := Byte.to_N b2 in
  is_cont b2 &&
  (if n1 =? 0xF0 then 0x90 <=? n2 else if n1 =? 0xF4 then n2 <=? 0x8F else true).

(** The UTF-8 decoder cuts the input into code points and errors. An
    error covers the longest prefix of a well-formed sequence that the
    input has at that place, one byte at least; decoding resumes after it. *)
Fixpoint utf8_scan (bs : bytes) : list (option char) :=
  match bs with
  | [] => []
  | b1 :: r1 =>
      let n1 := Byte.to_N b1 in
      if n1 <? 0x80 then Some n1 :: utf8_scan r1
      else if n1 <? 0xC2 then None :: utf8_scan r1
      else if n1 <? 0xE0 then
        match r1 with
        | [] => [None]
        | b2 :: r2 =>
            if is_cont b2
            then Some ((n1 - 0xC0) * 64 + low6 b2) :: utf8_scan r2
            else None :: utf8_scan r1
        end
      else if n1 <? 0xF0 then
        match r1 with
        | [] => [None]
        | b2 :: r2 =>
            if second_of_3 n1 b2 then
              match r2 with
              | [] => [None]
              | b3 :: r3 =>
                  if is_cont b3
                  then Some (((n1 - 0xE0) * 64 + low6 b2) * 64 + low6 b3)
                         :: utf8_scan r3
                  else None :: utf8_scan r2
              end
            else None :: utf8_scan r1
        end
      else if n1 <? 0xF5 then
        match r1 with
        | [] => [None]
        | b2 :: r2 =>
            if second_of_4 n1 b2 then
              match r2 with
              | [] => [None]
              | b3 :: r3 =>
                  if is_cont b3 then
                    match r3 with
                    | [] => [None]
                    | b4 :: r4 =>
                        if is_cont b4
                        then Some ((((n1 - 0xF0) * 64 + low6 b2) * 64 + low6 b3) * 64
                                   + low6 b4) :: utf8_scan r4
                        else None :: utf8_scan r3
                    end
                  else None :: utf8_scan r2
              end
            else None :: utf8_scan r1
        end
      else None :: utf8_scan r1
  end.

(** What the error handler makes of the scanned input. *)
Fixpoint handle (e : errors) (l : list (option char)) : result str :=
  match l with
  | [] => Ok []
  | Some c :: l' =>
      match handle e l' with Ok s => Ok (c :: s) | Raise x => Raise x end
  | None :: l' =>
      match e with
      | Strict => Raise UnicodeDecodeError
      | Ignore => handle e l'
      | Replace =>
          match handle e l' with Ok s => Ok (0xFFFD :: s) | Raise x => Raise x end
      end
  end.

Definition utf8_decode (e : errors) (raw : bytes) : result str :=
  handle e (utf8_scan raw).

(** A charmap codec decodes byte by byte through a table of 256 code
    points, where U+FFFE marks a byte the encoding does not define. *)
Definition UNDEFINED : char := 0xFFFE.

Definition charmap_scan (table : list char) (raw : bytes) : list (option char) :=
  map (fun b =>
         let c := nth (N.to_nat (Byte.to_N b)) table UNDEFINED in
         if c =? UNDEFINED then None else Some c) raw.

Definition charmap_decode (table : list char) (e : errors) (raw : bytes) : result str :=
  handle e (charmap_scan table raw).

Definition upto (start : N) (n : nat) : list char :=
  map (fun i => start + N.of_nat i) (seq 0 n).

Definition cp1251_table : list char :=
  upto 0 128 ++
  [0x0402; 0x0403; 0x201A; 0x0453; 0x201E; 0x2026; 0x2020; 0x2021;
   0x20AC; 0x2030; 0x0409; 0x2039; 0x040A; 0x040C; 0x040B; 0x040F;
   0x0452; 0x2018; 0x2019; 0x201C; 0x201D; 0x2022; 0x2013; 0x2014;
   UNDEFINED; 0x2122; 0x0459; 0x203A; 0x045A; 0x045C; 0x045B; 0x045F;
   0x00A0; 0x040E; 0x045E; 0x0408; 0x00A4; 0x0490; 0x00A6; 0x00A7;
   0x0401; 0x00A9; 0x0404; 0x00AB; 0x00AC; 0x00AD; 0x00AE; 0x0407;
   0x00B0; 0x00B1; 0x0406; 0x0456; 0x0491; 0x00B5; 0x00B6; 0x00B7;
   0x0451; 0x2116; 0x0454; 0x00BB; 0x0458; 0x0405; 0x0455; 0x0457] ++
  upto 0x0410 64.

Definition koi8_r_lower : list char :=
  [0x044E; 0x0430; 0x0431; 0x0446; 0x0434; 0x0435; 0x0444; 0x0433;
   0x0445; 0x0438; 0x0439; 0x043A; 0x043B; 0x043C; 0x043D; 0x043E;
   0x043F; 0x044F; 0x0440; 0x0441; 0x0442; 0x0443; 0x0436; 0x0432;
   0x044C; 0x044B; 0x0437; 0x0448; 0x044D; 0x0449; 0x0447; 0x044A].

Definition koi8_r_table : list char :=
  upto 0 128 ++
  [0x2500; 0x2502; 0x250C; 0x2510; 0x2514; 0x2518; 0x251C; 0x2524;
   0x252C; 0x2534; 0x253C; 0x2580; 0x2584; 0x2588; 0x258C; 0x2590;
   0x2591; 0x2592; 0x2593; 0x2320; 0x25A0; 0x2219; 0x221A; 0x2248;
   0x2264; 0x2265; 0x00A0; 0x2321; 0x00B0; 0x00B2; 0x00B7; 0x00F7;
   0x2550; 0x2551; 0x2552; 0x0451; 0x2553; 0x2554; 0x2555; 0x2556;
   0x2557; 0x2558; 0x2559; 0x255A; 0x255B; 0x255C; 0x255D; 0x255E;
   0x255F; 0x2560; 0x2561; 0x0401; 0x2562; 0x2563; 0x2564; 0x2565;
   0x2566; 0x2567; 0x2568; 0x2569; 0x256A; 0x256B; 0x256C; 0x00A9] ++
  koi8_r_lower ++ map (fun c => c - 0x20) koi8_r_lower.

Definition cp866_table : list char :=
  upto 0 128 ++ upto 0x0410 48 ++
  [0x2591; 0x2592; 0x2593; 0x2502; 0x2524; 0x2561; 0x2562; 0x2556;
   0x2555; 0x2563; 0x2551; 0x2557; 0x255D; 0x255C; 0x255B; 0x2510;
   0x2514; 0x2534; 0x252C; 0x251C; 0x2500; 0x253C; 0x255E; 0x255F;
   0x255A; 0x2554; 0x2569; 0x2566; 0x2560; 0x2550; 0x256C; 0x2567;
   0x2568; 0x2564; 0x2565; 0x2559; 0x2558; 0x2552; 0x2553; 0x256B;
   0x256A; 0x2518; 0x250C; 0x2588; 0x2584; 0x258C; 0x2590; 0x2580] ++
  upto 0x0440 16 ++
  [0x0401; 0x0451; 0x0404; 0x0454; 0x0407; 0x0457; 0x040E; 0x045E;
   0x00B0; 0x2219; 0x00B7; 0x221A; 0x2116; 0x00A4; 0x25A0; 0x00A0].

Definition iso8859_5_table : list char :=
  upto 0 161 ++ upto 0x0401 12 ++ [0x00AD; 0x040E; 0x040F] ++
  upto 0x0410 64 ++ [0x2116] ++ upto 0x0451 12 ++ [0x00A7; 0x045E; 0x045F].

(** The names of the encodings as the program spells them. *)
Inductive encoding : Type :=
  | utf_8 | windows_1251 | koi8_r | cp866 | iso_8859_5.

(** [raw.decode(encoding, errors=e)] *)
Definition decode (enc : encoding) (e : errors) (raw : bytes) : result str :=
  match enc with
  | utf_8 => utf8_decode e raw
  | windows_1251 => charmap_decode cp1251_table e raw
  | koi8_r => charmap_decode koi8_r_table e raw
  | cp866 => charmap_decode cp866_table e raw
  | iso_8859_5 => charmap_decode iso8859_5_table e raw
  end.

(** UTF-8 of one code point; a surrogate has none. *)
Definition utf8_encode_char (c : char) : option bytes :=
  if c <? 0x80 then Some [byte_of c]
  else if c <? 0x800 then Some [byte_of (0xC0 + c / 64); byte_of (0x80 + c mod 64)]
  else if (0xD800 <=? c) && (c <=? 0xDFFF) then None
  else if c <? 0x10000 then
    Some [byte_of (0xE0 + c / 4096); byte_of (0x80 + (c / 64) mod 64);
          byte_of (0x80 + c mod 64)]
  else if c <? 0x110000 then
    Some [byte_of (0xF0 + c / 262144); byte_of (0x80 + (c / 4096) mod 64);
          byte_of (0x80 + (c / 64) mod 64); byte_of (0x80 + c mod 64)]
  else None.

(** [s.encode('utf-8')] *)
Fixpoint utf8_encode (s : str) : result bytes :=
  match s with
  | [] => Ok []
  | c :: s' =>
      match utf8_encode_char c, utf8_encode s' with
      | Some bs, Ok r => Ok (bs ++ r)
      | None, _ => Raise UnicodeEncodeError
      | _, Raise x => Raise x
      end
  end.

End Codecs.

Export Codecs.

(** A literal of the program text. This file is UTF-8, as the Python
    sources are, so a literal is read through the UTF-8 decoder. *)
Definition lit (s : string) : str :=
  match utf8_decode Ignore (list_byte_of_string s) with
  | Ok t => t
  | Raise _ => []
  end.

Definition nl : str := [10].

(** ** [datetime] *)

Module DateTime.

Local Open Scope Z_scope.

Record datetime : Type := {
  year : Z; month : Z; day : Z;
  hour : Z; minute : Z; second : Z
}.

Definition is_leap (y : Z) : bool :=
  (y mod 4 =? 0) && (negb (y mod 100 =? 0) || (y mod 400 =? 0)).

Definition days_in_month (y m : Z) : Z :=
  if m =? 2 then (if is_leap y then 29 else 28)
  else if (m =? 4) || (m =? 6) || (m =? 9) || (m =? 11) then 30
  else 31.

(** [d.replace(day=new_day)]: [ValueError] when the month of [d] has no
    such day. *)
Definition replace_day (d : datetime) (new_day : Z) : result datetime :=
  if (1 <=? new_day) && (new_day <=? days_in_month (year d) (month d))
  then Ok {| year := year d; month := month d; day := new_day;
             hour := hour d; minute := minute d; second := second d |}
  else Raise ValueError.

Definition padded (width : nat) (n : Z) : str := zero_pad width (decimal (Z.to_N n)).

(** One directive of [strftime]; the program uses [%Y %m %d %H %M %S].
    [%Y] is the year as the C library of Linux writes it, in decimal and
    with no zeros put before a year of fewer than four digits. *)
Definition directive (k : char) (d : datetime) : str :=
  if (k =? 89)%N then decimal (Z.to_N (year d))
  else if (k =? 109)%N then padded 2 (month d)
  else if (k =? 100)%N then padded 2 (day d)
  else if (k =? 72)%N then padded 2 (hour d)
  else if (k =? 77)%N then padded 2 (minute d)
  else if (k =? 83)%N then padded 2 (second d)
  else [37%N; k].

(** [d.strftime(fmt)] *)
Fixpoint strftime (fmt : str) (d : datetime) : str :=
  match fmt with
  | [] => []
  | c :: rest =>
      if (c =? 37)%N then
        match rest with
        | [] => [c]
        | k :: rest' => directive k d ++ strftime rest' d
        end
      else c :: strftime rest d
  end.

End DateTime.

Export DateTime.

(** ** Computations over a world

    The world holds what lies outside the program: the remote disk and
    the clock. A raised exception leaves the world as it was when it was
    raised. *)

Definition M (W A : Type) : Type := W -> result A * W.

Definition ret {W A} (a : A) : M W A := fun w => (Ok a, w).

Definition raise {W A} (e : exn) : M W A := fun w => (Raise e, w).

Definition bind {W A B} (m : M W A) (k : A -> M W B) : M W B :=
  fun w => match m w with
           | (Ok a, w') => k a w'
           | (Raise e, w') => (Raise e, w')
           end.

(** [try: body  except Exception: handler] *)
Definition try_except {W A} (body : M W A) (handler : exn -> M W A) : M W A :=
  fun w => match body w with
           | (Ok a, w') => (Ok a, w')
           | (Raise e, w') => handler e w'
           end.

Definition lift {W A} (r : result A) : M W A := fun w => (r, w).

Declare Scope py_scope.
Delimit Scope py_scope with py.
Notation "x <- m ;; k" := (bind m (fun x => k))
  (at level 100, m at next level, right associativity) : py_scope.
Notation "m ;;; k" := (bind m (fun _ => k))
  (at level 100, right associativity) : py_scope.
Local Open Scope py_scope.

(** Binding the arguments of a call to the parameters of the callee
    (those after [self], none of which has a default here):
    [TypeError] when a keyword names no parameter, when a parameter is
    given twice or when one is left without a value. *)
Definition bind_arguments (params : list string) (positional : nat)
    (keywords : list string) : result unit :=
  let open := drop positional params in
  if (positional <=? length params)%nat
     && forallb (fun k => existsb (String.eqb k) open) keywords
     && forallb (fun p => existsb (String.eqb p) keywords) open
     && (length keywords =? length open)%nat
  then Ok tt else Raise TypeError.

Definition call {W A} (params : list string) (positional : nat)
    (keywords : list string) (body : M W A) : M W A :=
  match bind_arguments params positional keywords with
  | Ok _ => body
  | Raise e => raise e
  end.

(** ** What the program runs on

    The [yadisk] client, [python-docx], [charset_normalizer], the clock
    and the platform. A download goes through a local scratch file that
    the method removes before it returns; the scratch file is folded into
    [client_download] and [client_upload], which give and take the bytes. *)

Class Env (W : Type) : Type := {
  (** [yadisk.Client]: [check_token], [exists], [mkdir], [download],
      [upload(..., overwrite=True)], [listdir] (the names of the items) *)
  client_check_token : str -> M W bool;
  client_exists : str -> M W bool;
  client_mkdir : str -> M W unit;
  client_download : str -> M W bytes;
  client_upload : bytes -> str -> M W unit;
  client_listdir : str -> M W (list str);
  (** [docx.Document(file).paragraphs], the text of each paragraph *)
  Document_open : bytes -> result (list str);
  (** a new [docx.Document()] with one [add_paragraph] per text, saved *)
  Document_save : list str -> result bytes;
  (** [from_bytes(raw).best()] and [str] of the match, when
      [charset_normalizer] could be imported *)
  charset_best : option (bytes -> result (option str));
  (** [datetime.now()] *)
  datetime_now : M W datetime;
  (** [os.linesep], which a file opened in text mode writes for a newline *)
  os_linesep : str
}.

(** ** [yadisk_client.py] *)

Section YandexDiskClient.

Context {W : Type} `{Env W}.

Definition CHARSET_DETECT_AVAILABLE : bool :=
  match charset_best with Some _ => true | None => false end.

Record YandexDiskClient : Type := { root_folder : str }.

Definition YandexDiskClient__init__ (token : str) (root : str) : M W YandexDiskClient :=
  valid <- client_check_token token ;;
  if negb valid then raise ValueError
  else ret {| root_folder := root |}.

Definition full_path_of (self : YandexDiskClient) (remote_path : str) : str :=
  lit "/" ++ root_folder self ++ lit "/" ++ remote_path.

Fixpoint ensure_parts (current_path : str) (parts : list str) : M W unit :=
  match parts with
  | [] => ret tt
  | part :: rest =>
      if negb (truthy part) then ensure_parts current_path rest
      else
        let current_path := current_path ++ lit "/" ++ part in
        present <- client_exists current_path ;;
        (if negb present then client_mkdir current_path else ret tt) ;;;
        ensure_parts current_path rest
  end.

Definition ensure_folder_exists (self : YandexDiskClient) (remote_path : str) : M W bool :=
  try_except
    (let current_path := lit "/" ++ root_folder self in
     let parts := split 47 remote_path in
     ensure_parts current_path parts ;;;
     ret true)
    (fun _ => ret false).

Definition get_daily_log_path (profile_name : str) (date : datetime) : str :=
  profile_name ++ lit "/logs/" ++ decimal (Z.to_N (year date)) ++ lit "/"
  ++ padded 2 (month date) ++ lit "/" ++ padded 2 (day date) ++ lit "/log.txt".

Definition read_docx (self : YandexDiskClient) (remote_path : str) : M W (option str) :=
  let full_path := full_path_of self remote_path in
  try_except
    (present <- client_exists full_path ;;
     if negb present then ret None
     else
       blob <- client_download full_path ;;
       paragraphs <- lift (Document_open blob) ;;
       let text := join nl paragraphs in
       ret (Some text))
    (fun _ => ret None).

Definition parent_folder (remote_path : str) : str :=
  join (lit "/") (but_last (split 47 remote_path)).

Definition write_docx (self : YandexDiskClient) (remote_path content : str) : M W bool :=
  let full_path := full_path_of self remote_path in
  try_except
    (let folder_path := parent_folder remote_path in
     (if truthy folder_path
      then ensure_folder_exists self folder_path ;;; ret tt
      else ret tt) ;;;
     blob <- lift (Document_save (split 10 content)) ;;
     client_upload blob full_path ;;;
     ret true)
    (fun _ => ret false).

(** [if content and content.startswith(BOM): content = content[1:]], where
    [BOM] is the character U+FEFF *)
Definition strip_bom (content : str) : str :=
  if truthy content && startswith [0xFEFF] content then drop 1 content else content.

Definition encodings : list encoding :=
  [utf_8; windows_1251; koi8_r; cp866; iso_8859_5].

(** The [for] loop of [_fallback_decode]: [Some r] when the loop returned
    or raised [r], [None] when it ran to its end. *)
Fixpoint fallback_loop (encs : list encoding) (raw_data : bytes) : option (result str) :=
  match encs with
  | [] => None
  | encoding :: rest =>
      match decode encoding Strict raw_data with
      | Ok content => Some (Ok (strip_bom content))
      | Raise UnicodeDecodeError => fallback_loop rest raw_data
      | Raise e => Some (Raise e)
      end
  end.

Definition _fallback_decode (raw_data : bytes) (remote_path : str) : result (option str) :=
  match fallback_loop encodings raw_data with
  | Some (Ok content) => Ok (Some content)
  | Some (Raise e) => Raise e
  | None =>
      match decode utf_8 Ignore raw_data with
      | Ok content => Ok (Some content)
      | Raise _ => Ok None
      end
  end.

(** The detection step of [_read_text_file]: [Some content] when it
    returned, [None] when the method goes on to the fallback. *)
Definition detect (raw_data : bytes) : option str :=
  match charset_best with
  | Some best =>
      match raw_data with
      | [] => None
      | _ =>
          match best raw_data with
          | Ok (Some content) => Some (strip_bom content)
          | Ok None => None
          | Raise _ => None
          end
      end
  | None => None
  end.

Definition _read_text_file (self : YandexDiskClient) (remote_path : str) : M W (option str) :=
  let full_path := full_path_of self remote_path in
  try_except
    (present <- client_exists full_path ;;
     if negb present then ret None
     else
       raw_data <- client_download full_path ;;
       match detect raw_data with
       | Some content => ret (Some content)
       | None => lift (_fallback_decode raw_data remote_path)
       end)
    (fun _ => ret None).

Definition read_file (self : YandexDiskClient) (remote_path : str) : M W (option str) :=
  if endswith (lit ".docx") (lower remote_path)
  then read_docx self remote_path
  else _read_text_file self remote_path.

(** What [tf.write(content)] leaves in a file opened with [mode='w',
    encoding='utf-8']: newlines written as [os.linesep], then UTF-8. *)
Definition text_mode_bytes (content : str) : result bytes :=
  utf8_encode (flat_map (fun c => if c =? 10 then os_linesep else [c]) content).

Definition _write_text_file_params : list string := ["remote_path"; "content"]%string.

Definition _write_text_file (self : YandexDiskClient) (remote_path content : str) : M W bool :=
  let full_path := full_path_of self remote_path in
  try_except
    (let folder_path := parent_folder remote_path in
     (if truthy folder_path
      then ensure_folder_exists self folder_path ;;; ret tt
      else ret tt) ;;;
     data <- lift (text_mode_bytes content) ;;
     client_upload data full_path ;;;
     ret true)
    (fun _ => ret false).

Definition write_file (self : YandexDiskClient) (remote_path content : str) : M W bool :=
  if endswith (lit ".docx") (lower remote_path)
  then write_docx self remote_path content
  else _write_text_file self remote_path content.

Definition list_files (self : YandexDiskClient) (remote_path : str) : M W (list str) :=
  let full_path := full_path_of self remote_path in
  try_except
    (present <- client_exists full_path ;;
     if negb present then ret []
     else client_listdir full_path)
    (fun _ => ret []).

End YandexDiskClient.

(** ** [profile_manager.py] *)

Section ProfileManager.

Context {W : Type} `{Env W}.

Definition ProfileDict : Type := gmap str str.

(** [FilesDict = Dict[str, Optional[str]]] *)
Definition FilesDict : Type := gmap str (option str).

Definition PROFILE_FILES : list str :=
  [lit "key.docx"; lit "king.docx"; lit "rules.docx"; lit "library.docx";
   lit "welcome.docx"].

Record ProfileManager : Type := {
  disk : YandexDiskClient;
  profiles : list ProfileDict
}.

(** [config.get("profiles", [])] *)
Definition ProfileManager__init__ (disk_client : YandexDiskClient)
    (config : gmap str (list ProfileDict)) : ProfileManager :=
  {| disk := disk_client;
     profiles := default [] (config !! lit "profiles") |}.

Definition get_all_profiles (self : ProfileManager) : list ProfileDict :=
  profiles self.

(** The body of the [for] loop of [get_profile_files]. *)
Definition read_one (self : ProfileManager) (profile_name file_name : str)
    (files : FilesDict) : M W FilesDict :=
  let key := replace (lit ".docx") [] file_name in
  try_except
    (let path := profile_name ++ lit "/" ++ file_name in
     content <- read_file (disk self) path ;;
     if truthy_opt content
     then ret (<[key := content]> files)
     else ret (<[key := Some []]> files))
    (fun _ => ret (<[key := Some []]> files)).

Fixpoint read_each (self : ProfileManager) (profile_name : str)
    (file_names : list str) (files : FilesDict) : M W FilesDict :=
  match file_names with
  | [] => ret files
  | file_name :: rest =>
      files <- read_one self profile_name file_name files ;;
      read_each self profile_name rest files
  end.

Definition get_profile_files (self : ProfileManager) (profile_name : str) : M W FilesDict :=
  read_each self profile_name PROFILE_FILES ∅.

Definition save_profile_file (self : ProfileManager)
    (profile_name file_key content : str) : M W bool :=
  let file_name := file_key ++ lit ".docx" in
  let path := profile_name ++ lit "/" ++ file_name in
  write_file (disk self) path content.

(** [files.get(key)] *)
Definition dict_get (files : FilesDict) (key : str) : option str :=
  match files !! key with
  | Some v => v
  | None => None
  end.

(** [files[key]] inside an f-string, behind a test that it is truthy *)
Definition dict_item (files : FilesDict) (key : str) : str :=
  default [] (dict_get files key).

Definition log_path_of (profile_name : str) (date : datetime) : str :=
  let date_path := strftime (lit "%Y/%m/%d") date in
  profile_name ++ lit "/logs/" ++ date_path ++ lit "/log.txt".

(** Lines 151 to 153 of [get_recent_messages]. *)
Definition last_messages (content : str) (limit : Z) : str :=
  let lines := split 10 (strip content) in
  let last_lines :=
    if (Z.of_nat (length lines) >? limit)%Z then slice_from (- limit) lines
    else lines in
  join nl last_lines.

Definition get_recent_messages (self : ProfileManager) (profile_name : str)
    (limit : Z) : M W str :=
  today <- datetime_now ;;
  now <- datetime_now ;;
  yesterday <- lift (replace_day now (day today - 1)) ;;
  let log_path := log_path_of profile_name today in
  content <- _read_text_file (disk self) log_path ;;
  content <-
    (if negb (truthy_opt content)
     then
       let log_path := log_path_of profile_name yesterday in
       _read_text_file (disk self) log_path
     else ret content) ;;
  match content with
  | Some ((_ :: _) as text) => ret (last_messages text limit)
  | _ => ret []
  end.

Definition build_context (self : ProfileManager) (profile_name : str)
    (limit : Z) : M W str :=
  files <- get_profile_files self profile_name ;;
  let parts := [] in
  let parts :=
    if truthy_opt (dict_get files (lit "king"))
    then parts ++ [lit "ТЫ — ЛИЧНОСТЬ:" ++ nl ++ dict_item files (lit "king") ++ nl]
    else parts in
  let parts :=
    if truthy_opt (dict_get files (lit "rules"))
    then parts ++ [lit "ПРАВИЛА ОБЩЕНИЯ:" ++ nl ++ dict_item files (lit "rules") ++ nl]
    else parts in
  let parts :=
    if truthy_opt (dict_get files (lit "library"))
    then parts ++ [lit "ТВОИ ЗНАНИЯ И ОПЫТ:" ++ nl ++ dict_item files (lit "library") ++ nl]
    else parts in
  recent <- get_recent_messages self profile_name limit ;;
  let parts :=
    if truthy recent
    then parts ++ [lit "ПОСЛЕДНИЕ СООБЩЕНИЯ В ЧАТЕ:" ++ nl ++ recent ++ nl]
    else parts in
  ret (join nl parts).

(** [save_message] returns nothing; what it does is in the world. The
    call of [_write_text_file] passes [append=True]. *)
Definition save_message (self : ProfileManager) (profile_name role text : str)
    (timestamp : datetime) : M W unit :=
  try_except
    (let date_path := strftime (lit "%Y/%m/%d") timestamp in
     let log_path := profile_name ++ lit "/logs/" ++ date_path ++ lit "/log.txt" in
     let folder_path := profile_name ++ lit "/logs/" ++ date_path in
     ensure_folder_exists (disk self) folder_path ;;;
     let time_str := strftime (lit "%H:%M:%S") timestamp in
     let log_entry := lit "[" ++ time_str ++ lit "] " ++ role ++ lit ": " ++ text ++ nl in
     success <- call _write_text_file_params 2 ["append"%string]
                  (_write_text_file (disk self) log_path log_entry) ;;
     ret tt)
    (fun _ => ret tt).

Definition read_profile_file (self : ProfileManager) (profile_name file_key : str)
    : M W (option str) :=
  try_except
    (files <- get_profile_files self profile_name ;;
     ret (dict_get files file_key))
    (fun _ => ret None).

Definition add_to_library (self : ProfileManager) (profile_name text : str) : M W bool :=
  try_except
    (let path := profile_name ++ lit "/library.docx" in
     current <- read_profile_file self profile_name (lit "library") ;;
     now <- datetime_now ;;
     let timestamp := strftime (lit "%Y-%m-%d %H:%M:%S") now in
     let new_content :=
       if truthy_opt current
       then default [] current ++ nl ++ nl ++ lit "[" ++ timestamp ++ lit "] ДОБАВЛЕНО:"
            ++ nl ++ text
       else text in
     save_profile_file self profile_name (lit "library") new_content)
    (fun _ => ret false).

End ProfileManager.

(** ** A disk in memory

    An instance of the environment to run the program on: a disk that
    keeps what is uploaded, a clock that stands still, no
    [charset_normalizer], and a stand-in for [python-docx]. *)

Module MemDisk.

Inductive node : Type :=
  | Folder
  | File (data : bytes).

Record Mem : Type := {
  nodes : gmap str node;
  clock : datetime;
  token : str
}.

Definition with_nodes (m : Mem) (n : gmap str node) : Mem :=
  {| nodes := n; clock := clock m; token := token m |}.

(** The folder a path lies in; the top of the disk is the empty path. *)
Definition parent (path : str) : str := join (lit "/") (but_last (split 47 path)).

Definition is_folder (m : Mem) (path : str) : bool :=
  match path with
  | [] => true
  | _ => match nodes m !! path with Some Folder => true | _ => false end
  end.

Definition not_found : exn := LibraryError 404.
Definition conflict : exn := LibraryError 409.

Definition mem_check_token (t : str) : M Mem bool :=
  fun m => (Ok (str_eqb t (token m)), m).

Definition mem_exists (path : str) : M Mem bool :=
  fun m => (Ok (match nodes m !! path with Some _ => true | None => false end), m).

Definition mem_mkdir (path : str) : M Mem unit :=
  fun m =>
    match nodes m !! path with
    | Some _ => (Raise conflict, m)
    | None =>
        if is_folder m (parent path)
        then (Ok tt, with_nodes m (<[path := Folder]> (nodes m)))
        else (Raise conflict, m)
    end.

Definition mem_download (path : str) : M Mem bytes :=
  fun m =>
    match nodes m !! path with
    | Some (File data) => (Ok data, m)
    | _ => (Raise not_found, m)
    end.

Definition mem_upload (data : bytes) (path : str) : M Mem unit :=
  fun m =>
    match nodes m !! path with
    | Some Folder => (Raise conflict, m)
    | _ =>
        if is_folder m (parent path)
        then (Ok tt, with_nodes m (<[path := File data]> (nodes m)))
        else (Raise conflict, m)
    end.

Definition mem_listdir (path : str) : M Mem (list str) :=
  fun m =>
    if is_folder m path
    then (Ok (omap (fun '(p, _) =>
                      if str_eqb (parent p) path
                      then Some (drop (S (length path)) p) else None)
                   (map_to_list (nodes m))), m)
    else (Raise not_found, m).

(** The stand-in document format: a two-byte signature, then the
    paragraphs in UTF-8, one to a line. *)
Definition signature : bytes := [x50; x4b].

Definition standin_save (paragraphs : list str) : result bytes :=
  match utf8_encode (join nl paragraphs) with
  | Ok data => Ok (signature ++ data)
  | Raise _ => Raise ValueError
  end.

Definition standin_open (blob : bytes) : result (list str) :=
  match blob with
  | x50 :: x4b :: data =>
      match utf8_decode Strict data with
      | Ok text => Ok (split 10 text)
      | Raise _ => Raise (LibraryError 1)
      end
  | _ => Raise (LibraryError 1)
  end.

#[export] Instance mem_env : Env Mem := {
  client_check_token := mem_check_token;
  client_exists := mem_exists;
  client_mkdir := mem_mkdir;
  client_download := mem_download;
  client_upload := mem_upload;
  client_listdir := mem_listdir;
  Document_open := standin_open;
  Document_save := standin_save;
  charset_best := None;
  datetime_now := fun m => (Ok (clock m), m);
  os_linesep := nl
}.

Definition XLog : YandexDiskClient := {| root_folder := lit "XLog" |}.

Definition manager : ProfileManager := {| disk := XLog; profiles := [] |}.

Definition at_time (y mo d h mi s : Z) : datetime :=
  {| year := y; month := mo; day := d; hour := h; minute := mi; second := s |}.

(** A disk from a list of folders and files. *)
Definition disk_of (folders : list str) (files : list (str * bytes)) : gmap str node :=
  list_to_map (map (fun p => (p, Folder)) folders ++ map (fun '(p, d) => (p, File d)) files).

Definition ascii_bytes (s : string) : bytes := list_byte_of_string s.

End MemDisk.

Import MemDisk.

(** ** Notions the properties are stated with *)

(** The last [n] elements of a list, all of them when it has fewer. *)
Definition lastn {A} (n : nat) (l : list A) : list A := drop (length l - n) l.

(** A string of ASCII characters *)
Definition is_ascii (s : str) : Prop := Forall (fun c => c < 128) s.

(** The disk keeps what is uploaded: after an upload that succeeded the
    path exists and a download gives the same bytes back. *)
Definition stores_faithfully {W} `{Env W} : Prop :=
  forall data path w w',
    client_upload data path w = (Ok tt, w') ->
    client_exists path w' = (Ok true, w') /\
    client_download path w' = (Ok data, w').

(** Asking whether a path exists and downloading change nothing. *)
Definition reads_change_nothing {W} `{Env W} : Prop :=
  forall path w,
    snd (client_exists path w) = w /\ snd (client_download path w) = w.

(** The document format gives back the paragraphs of this document. *)
Definition keeps_paragraphs {W} `{Env W} (paragraphs : list str) : Prop :=
  forall blob, Document_save paragraphs = Ok blob -> Document_open blob = Ok paragraphs.

(** [charset_normalizer], where it is installed and finds a match for
    bytes that are ASCII, gives the text those bytes spell. *)
Definition detects_ascii {W} `{Env W} : Prop :=
  forall best raw content,
    charset_best = Some best ->
    Forall (fun b => Byte.to_N b < 128) raw ->
    best raw = Ok (Some content) ->
    content = map Byte.to_N raw.

(** What a read leaves for a profile file: its text, or the empty string
    when there is none or the read failed. *)
Definition content_or_empty (r : result (option str)) : str :=
  match r with
  | Ok (Some content) => content
  | _ => []
  end.

(** The key a file of the profile is kept under. *)
Definition key_of (file_name : str) : str := replace (lit ".docx") [] file_name.

(** ** Worlds and texts to run the program on *)

(** A disk that holds the root folder and the folder of one profile. *)
Definition w_docs : Mem :=
  {| nodes := disk_of [lit "/XLog"; lit "/XLog/anna"] [];
     clock := at_time 2024 3 15 10 20 30;
     token := lit "secret" |}.

Definition two_lines : str := lit "first line" ++ nl ++ lit "second line".

(** A path whose last five characters spell [.docx] in letters of either
    case. *)
Definition ends_like_docx (path : str) : Prop :=
  exists stem extension,
    path = stem ++ extension /\ lower extension = lit ".docx".

(** A profile with a document under a name in capitals. *)
Definition w_capitals : Mem :=
  {| nodes := disk_of [lit "/XLog"; lit "/XLog/anna"]
                [(lit "/XLog/anna/KING.DOCX", signature ++ ascii_bytes "hello")];
     clock := at_time 2024 3 15 10 20 30;
     token := lit "secret" |}.

(** The UTF-8 bytes of a text. *)
Definition bytes_of (s : str) : bytes :=
  match utf8_encode s with Ok data => data | Raise _ => [] end.

(** The stand-in document with the lines of a text as paragraphs. *)
Definition document_of (s : str) : bytes :=
  match standin_save (split 10 s) with Ok blob => blob | Raise _ => [] end.

Definition log_folders (profile : string) : list str :=
  map lit ["/XLog"; "/XLog/" ++ profile; "/XLog/" ++ profile ++ "/logs";
           "/XLog/" ++ profile ++ "/logs/2024";
           "/XLog/" ++ profile ++ "/logs/2024/03";
           "/XLog/" ++ profile ++ "/logs/2024/03/15"]%string.

Definition old_entry : str := lit "[09:00:00] user: old" ++ nl.

(** A profile whose log of 15 March 2024 has one entry. *)
Definition w_log : Mem :=
  {| nodes := disk_of (log_folders "anna")
                [(lit "/XLog/anna/logs/2024/03/15/log.txt", bytes_of old_entry)];
     clock := at_time 2024 3 15 10 20 30;
     token := lit "secret" |}.

(** The first day of a month; the profile has no document and no log. *)
Definition w_first_day : Mem :=
  {| nodes := disk_of [lit "/XLog"; lit "/XLog/anna"] [];
     clock := at_time 2024 3 1 10 20 30;
     token := lit "secret" |}.

Definition rules_text : str := lit "Be brief.".

(** A profile with [rules.docx] only, on the first and on the fifteenth. *)
Definition w_rules_on (day_of_month : Z) : Mem :=
  {| nodes := disk_of [lit "/XLog"; lit "/XLog/anna"]
                [(lit "/XLog/anna/rules.docx", document_of rules_text)];
     clock := at_time 2024 3 day_of_month 10 20 30;
     token := lit "secret" |}.

(** One section of the context: a label, the text, and nothing at all
    for an empty text. *)
Definition section_of (label : string) (text : str) : list str :=
  if truthy text then [lit label ++ nl ++ text ++ nl] else [].

(** The dictionary a computation returned, the empty one if it raised. *)
Definition returned_files {W} (r : result FilesDict * W) : FilesDict :=
  match fst r with
  | Ok files => files
  | Raise _ => ∅
  end.

(** The last [n] lines of a text that has its leading and trailing
    whitespace stripped. *)
Definition last_lines (n : nat) (text : str) : str :=
  join nl (lastn n (split 10 (strip text))).

(** The last [n] lines of a text taken as it is. *)
Definition last_lines_unstripped (n : nat) (text : str) : str :=
  join nl (lastn n (split 10 text)).

(** A profile whose log of the day has the given content. *)
Definition w_with_log (content : str) : Mem :=
  {| nodes := disk_of (log_folders "anna")
                [(lit "/XLog/anna/logs/2024/03/15/log.txt", bytes_of content)];
     clock := at_time 2024 3 15 10 20 30;
     token := lit "secret" |}.

Definition indented_log : str := lit "  first" ++ nl ++ lit "second".

Definition five_lines : str :=
  lit "[09:00:01] user: one" ++ nl ++ lit "[09:00:02] bot: two" ++ nl ++
  lit "[09:00:03] user: three" ++ nl ++ lit "[09:00:04] bot: four" ++ nl ++
  lit "[09:00:05] user: five" ++ nl.

(** What [add_to_library] puts after a library that is not empty: an
    empty line, the marker with the time, and the text. *)
Definition added_block (timestamp text : str) : str :=
  nl ++ nl ++ lit "[" ++ timestamp ++ lit "] ДОБАВЛЕНО:" ++ nl ++ text.

Definition library_path (profile_name : str) : str :=
  profile_name ++ lit "/" ++ lit "library.docx".

Definition fact_a : str := lit "Anna likes tea.".
Definition fact_b : str := lit "Anna has a cat.".


(** ** Notions for the further properties *)

(** The paths [ensure_folder_exists] asks the disk about, one for each
    part of the path that is not empty. *)
Fixpoint visited (current_path : str) (parts : list str) : list str :=
  match parts with
  | [] => []
  | part :: rest =>
      if negb (truthy part) then visited current_path rest
      else
        let current_path := current_path ++ lit "/" ++ part in
        current_path :: visited current_path rest
  end.

(** A folder that was made is there afterwards, and so is everything
    that was there before. *)
Definition mkdir_adds {W} `{Env W} : Prop :=
  forall path w w',
    client_mkdir path w = (Ok tt, w') ->
    client_exists path w' = (Ok true, w') /\
    forall other, client_exists other w = (Ok true, w) ->
                  client_exists other w' = (Ok true, w').

(** A computation that raises nothing, whatever the world. *)
Definition returns {W A} (m : M W A) : Prop :=
  forall w, exists a, fst (m w) = Ok a.

(** The keys of the files of a profile. *)
Definition profile_keys : list str :=
  [lit "key"; lit "king"; lit "rules"; lit "library"; lit "welcome"].

(** A disk that is out of reach: every call of the client raises and
    changes nothing. *)
Definition disk_down {W} `{Env W} : Prop :=
  forall path w,
    (exists e, client_exists path w = (Raise e, w)) /\
    (exists e, client_mkdir path w = (Raise e, w)) /\
    (exists e, client_download path w = (Raise e, w)) /\
    (forall data, exists e, client_upload data path w = (Raise e, w)) /\
    (exists e, client_listdir path w = (Raise e, w)).

(** The environment of a disk out of reach. *)
Definition unreachable : exn := LibraryError 503.

Definition down_env : Env unit := {|
  client_check_token := fun _ => raise unreachable;
  client_exists := fun _ => raise unreachable;
  client_mkdir := fun _ => raise unreachable;
  client_download := fun _ => raise unreachable;
  client_upload := fun _ _ => raise unreachable;
  client_listdir := fun _ => raise unreachable;
  Document_open := standin_open;
  Document_save := standin_save;
  charset_best := None;
  datetime_now := ret (at_time 2024 3 15 10 20 30);
  os_linesep := nl
|}.

(** The log text [get_recent_messages] goes by: the log of today, or
    the log of yesterday when that of today is empty or not there. *)
Definition found_log {W} `{Env W} (self : ProfileManager) (profile_name : str)
    (today yesterday : datetime) (w : W) : str * W :=
  let todays := _read_text_file (disk self) (log_path_of profile_name today) w in
  if truthy (content_or_empty (fst todays))
  then (content_or_empty (fst todays), snd todays)
  else
    let yesterdays :=
      _read_text_file (disk self) (log_path_of profile_name yesterday) (snd todays) in
    (content_or_empty (fst yesterdays), snd yesterdays).

(** A date whose day is one of the days of its month. *)
Definition valid_day (d : datetime) : Prop :=
  (1 <= day d <= days_in_month (year d) (month d))%Z.

(** What a file opened in text mode holds of a text before it is
    encoded: each newline written as [os.linesep]. *)
Definition as_written {W} `{Env W} (content : str) : str :=
  flat_map (fun c => if c =? 10 then os_linesep else [c]) content.

(** A surrogate, which UTF-8 has no bytes for. *)
Definition surrogate (c : char) : Prop := 0xD800 <= c <= 0xDFFF.

(** Windows-1251 gives every byte a character but [98]. *)
Definition readable_1251 (raw : bytes) : bool :=
  forallb (fun b => negb (Byte.eqb b x98)) raw.

(** The text of a decoding that did not fail. *)
Definition text_of (r : result str) : str :=
  match r with Ok s => s | Raise _ => [] end.

Definition cyrillic_note : str := lit "Привет, мир" ++ nl ++ lit "до встречи".

(** The number that digits spell, the last digit first. *)
Fixpoint value_rev (digits : str) : N :=
  match digits with
  | [] => 0
  | d :: rest => (d - 48) + 10 * value_rev rest
  end.

(** The number that a string of digits spells. *)
Definition number_of (s : str) : N := value_rev (rev s).

(** A date as [datetime] has them. *)
Definition calendar_date (d : datetime) : Prop :=
  (1 <= year d <= 9999)%Z /\ (1 <= month d <= 12)%Z /\ valid_day d.

(** ** Other platforms for the plain-text round trip *)

(** The disk in memory with a charset detector and a line separator of
    one's choosing. *)
Definition mem_env_with (best : option (bytes -> result (option str)))
    (linesep : str) : Env Mem := {|
  client_check_token := mem_check_token;
  client_exists := mem_exists;
  client_mkdir := mem_mkdir;
  client_download := mem_download;
  client_upload := mem_upload;
  client_listdir := mem_listdir;
  Document_open := standin_open;
  Document_save := standin_save;
  charset_best := best;
  datetime_now := fun m => (Ok (clock m), m);
  os_linesep := linesep
|}.

(** What [charset_normalizer] makes of the single byte [0x40], the [@]
    of ASCII: it reads it in an EBCDIC code page, where this byte is the
    space. Other inputs are left to the fallback decoder here. *)
Definition best_guess (raw : bytes) : result (option str) :=
  match raw with
  | [x40] => Ok (Some [32])
  | _ => Ok None
  end.

(** A Linux machine with [charset_normalizer] installed. *)
Definition env_detector : Env Mem := mem_env_with (Some best_guess) nl.

(** A Windows machine, where [os.linesep] is CR LF, without
    [charset_normalizer]. *)
Definition env_crlf : Env Mem := mem_env_with None [13; 10].

Definition notes_path : str := lit "anna/notes.txt".
Definition at_sign : str := lit "@".
Definition a_b : str := lit "a" ++ nl ++ lit "b".
Definition a_crlf_b : str := lit "a" ++ [13; 10] ++ lit "b".

(** A profile whose library is on the disk but is not a document. *)
Definition w_broken_library : Mem :=
  {| nodes := disk_of [lit "/XLog"; lit "/XLog/anna"]
                [(lit "/XLog/anna/library.docx", ascii_bytes "Anna likes tea.")];
     clock := at_time 2024 3 15 10 20 30;
     token := lit "secret" |}.

(** * Properties *)

(** ** Text *)

Lemma split_not_nil c s : split c s <> [].
Proof.
  destruct s as [|x s]; simpl; [discriminate|].
  destruct (x =? c); [discriminate|].
  destruct (split c s); discriminate.
Qed.

Lemma join_cons sep p ps : ps <> [] -> join sep (p :: ps) = p ++ sep ++ join sep ps.
Proof. destruct ps; [congruence | reflexivity]. Qed.

Lemma join_split c s : join [c] (split c s) = s.
Proof.
  induction s as [|x s IH]; [reflexivity|].
  simpl split. destruct (N.eqb_spec x c) as [->|Hne].
  - rewrite join_cons by apply split_not_nil. simpl. now rewrite IH.
  - pose proof (split_not_nil c s) as Hnn.
    destruct (split c s) as [|p ps]; [congruence|].
    destruct ps as [|q ps].
    + simpl in *. now rewrite IH.
    + rewrite join_cons by discriminate.
      rewrite join_cons in IH by discriminate.
      now rewrite <- IH.
Qed.

Lemma startswith_prefix p s :
  startswith p s = true <-> exists t, s = p ++ t.
Proof.
  revert s. induction p as [|x p IH]; intros s; simpl.
  - split; eauto.
  - destruct s as [|y s].
    + split; [discriminate | intros [t Ht]; discriminate].
    + rewrite andb_true_iff, N.eqb_eq, IH. split.
      * intros [-> [t ->]]. eauto.
      * intros [t Ht]. injection Ht as -> ->. eauto.
Qed.

Lemma endswith_suffix p s :
  endswith p s = true <-> exists t, s = t ++ p.
Proof.
  unfold endswith. rewrite startswith_prefix. split.
  - intros [t Ht]. exists (rev t).
    rewrite <- (rev_involutive s), Ht, rev_app_distr. now rewrite rev_involutive.
  - intros [t ->]. exists (rev t). apply rev_app_distr.
Qed.

Lemma lower_ends_docx path :
  endswith (lit ".docx") (lower path) = true <-> ends_like_docx path.
Proof.
  rewrite endswith_suffix. unfold ends_like_docx, lower. split.
  - intros [t Ht]. apply map_eq_app in Ht as (stem & extension & -> & _ & Hext).
    eauto.
  - intros (stem & extension & -> & Hext).
    exists (map lower_char stem). now rewrite map_app, Hext.
Qed.

(** ** Computations *)

Lemma bind_ok {W A B} (m : M W A) (k : A -> M W B) w b w' :
  bind m k w = (Ok b, w') ->
  exists a w1, m w = (Ok a, w1) /\ k a w1 = (Ok b, w').
Proof.
  unfold bind. destruct (m w) as [[a|e] w1]; [eauto | discriminate].
Qed.

Lemma bind_step {W A B} (m : M W A) (k : A -> M W B) w a w1 :
  m w = (Ok a, w1) -> bind m k w = k a w1.
Proof. unfold bind. now intros ->. Qed.

Lemma bind_raise {W A B} (m : M W A) (k : A -> M W B) w e w1 :
  m w = (Raise e, w1) -> bind m k w = (Raise e, w1).
Proof. unfold bind. now intros ->. Qed.

(** A method that answers [False] from its handler answered [True] from
    its body. *)
Lemma try_except_true {W} (body : M W bool) w w' :
  try_except body (fun _ => ret false) w = (Ok true, w') ->
  body w = (Ok true, w').
Proof.
  unfold try_except, ret. destruct (body w) as [[a|e] w1]; [tauto | discriminate].
Qed.

Lemma try_except_ok {W A} (body : M W A) (h : exn -> M W A) w a w' :
  body w = (Ok a, w') -> try_except body h w = (Ok a, w').
Proof. unfold try_except. now intros ->. Qed.

(** ** The disk in memory is a faithful one *)

Lemma mem_stores_faithfully : stores_faithfully (W := Mem).
Proof.
  intros data path m m' Hup. simpl in *.
  unfold mem_upload in Hup.
  assert (Hm : m' = with_nodes m (<[path := File data]> (nodes m))).
  { destruct (nodes m !! path) as [[|d]|]; try discriminate;
      destruct (is_folder m (parent path)); congruence. }
  subst m'. unfold mem_exists, mem_download, with_nodes. simpl.
  now rewrite lookup_insert_eq.
Qed.

Lemma mem_reads_change_nothing : reads_change_nothing (W := Mem).
Proof.
  intros path m. simpl. unfold mem_exists, mem_download. split; [reflexivity|].
  destruct (nodes m !! path) as [[|d]|]; reflexivity.
Qed.

(** ** Round trips *)

Section RoundTrips.

Context {W : Type} `{Env W}.

(** What a successful [write_docx] uploaded, and that the upload was the
    last thing done to the world. *)
Lemma write_docx_uploaded self path content w w' :
  write_docx self path content w = (Ok true, w') ->
  exists blob w1,
    Document_save (split 10 content) = Ok blob /\
    client_upload blob (full_path_of self path) w1 = (Ok tt, w').
Proof.
  intros Hw. unfold write_docx in Hw. apply try_except_true in Hw.
  apply bind_ok in Hw as (_ & w1 & _ & Hw).
  apply bind_ok in Hw as (blob & w2 & Hsave & Hw).
  apply bind_ok in Hw as ([] & w3 & Hup & Hw).
  unfold lift in Hsave. unfold ret in Hw.
  exists blob, w1. split; congruence.
Qed.

Lemma read_docx_stored self path blob paragraphs w :
  client_exists (full_path_of self path) w = (Ok true, w) ->
  client_download (full_path_of self path) w = (Ok blob, w) ->
  Document_open blob = Ok paragraphs ->
  read_docx self path w = (Ok (Some (join nl paragraphs)), w).
Proof.
  intros Hex Hdl Hopen. unfold read_docx.
  apply try_except_ok.
  rewrite (bind_step _ _ _ _ _ Hex). simpl.
  rewrite (bind_step _ _ _ _ _ Hdl).
  unfold lift, bind, ret. now rewrite Hopen.
Qed.

(** C10. A text written with [write_docx] is read back unchanged by
    [read_docx], on a disk that keeps what is uploaded and with a
    document format that keeps the paragraphs: splitting at the newlines
    and joining with newlines are inverse to each other. *)
Theorem docx_round_trip (self : YandexDiskClient) (path T : str) (w w' : W) :
  stores_faithfully ->
  keeps_paragraphs (split 10 T) ->
  write_docx self path T w = (Ok true, w') ->
  read_docx self path w' = (Ok (Some T), w').
Proof.
  intros Hdisk Hdoc Hw.
  apply write_docx_uploaded in Hw as (blob & w1 & Hsave & Hup).
  apply Hdisk in Hup as [Hex Hdl].
  rewrite (read_docx_stored self path blob (split 10 T) w' Hex Hdl (Hdoc blob Hsave)).
  unfold nl. now rewrite join_split.
Qed.

End RoundTrips.

Lemma docx_round_trip_witness :
  let w' := snd (write_docx XLog (lit "anna/king.docx") two_lines w_docs) in
  read_docx XLog (lit "anna/king.docx") w' = (Ok (Some two_lines), w').
Proof.
  intro w'. apply (docx_round_trip XLog (lit "anna/king.docx") two_lines w_docs w').
  - apply mem_stores_faithfully.
  - intros blob Hb. vm_compute in Hb. injection Hb as <-. vm_compute. reflexivity.
  - vm_compute. reflexivity.
Defined.

(** ** Plain text *)

Lemma to_N_byte_of c : c < 256 -> Byte.to_N (byte_of c) = c.
Proof.
  intros Hc. unfold byte_of.
  destruct (Byte.of_N c) as [b|] eqn:Hb.
  - now apply Byte.to_of_N.
  - apply Byte.of_N_None_iff in Hb. lia.
Qed.

Lemma utf8_encode_ascii s :
  is_ascii s -> utf8_encode s = Ok (map byte_of s).
Proof.
  induction 1 as [|c s Hc _ IH]; [reflexivity|].
  simpl. unfold utf8_encode_char.
  apply N.ltb_lt in Hc. rewrite Hc. now rewrite IH.
Qed.

Lemma utf8_scan_ascii s :
  is_ascii s -> utf8_scan (map byte_of s) = map Some s.
Proof.
  induction 1 as [|c s Hc _ IH]; [reflexivity|].
  simpl. rewrite to_N_byte_of by lia.
  apply N.ltb_lt in Hc. rewrite Hc. now rewrite IH.
Qed.

Lemma handle_all_some e s : handle e (map Some s) = Ok s.
Proof. induction s as [|c s IH]; [reflexivity|]. simpl. now rewrite IH. Qed.

Lemma utf8_decode_ascii e s :
  is_ascii s -> utf8_decode e (map byte_of s) = Ok s.
Proof.
  intros Hs. unfold utf8_decode. rewrite utf8_scan_ascii by assumption.
  apply handle_all_some.
Qed.

Lemma strip_bom_ascii s : is_ascii s -> strip_bom s = s.
Proof.
  intros Hs. unfold strip_bom. destruct Hs as [|c s Hc _]; [reflexivity|].
  cbn [truthy startswith andb].
  destruct (N.eqb_spec 0xFEFF c) as [<-|_]; [lia | reflexivity].
Qed.

Lemma ascii_bytes_back s :
  is_ascii s -> map Byte.to_N (map byte_of s) = s.
Proof.
  induction 1 as [|c s Hc _ IH]; [reflexivity|].
  simpl. rewrite to_N_byte_of by lia. now rewrite IH.
Qed.

Lemma ascii_bytes_small s :
  is_ascii s -> Forall (fun b => Byte.to_N b < 128) (map byte_of s).
Proof.
  induction 1 as [|c s Hc _ IH]; constructor; [|assumption].
  rewrite to_N_byte_of; lia.
Qed.

Lemma newlines_kept s :
  flat_map (fun c => if c =? 10 then nl else [c]) s = s.
Proof.
  induction s as [|c s IH]; [reflexivity|].
  simpl. rewrite IH. now destruct (N.eqb_spec c 10) as [->|_].
Qed.

(** The fallback decoder reads ASCII bytes as the text they spell. *)
Lemma fallback_decode_ascii s path :
  is_ascii s -> _fallback_decode (map byte_of s) path = Ok (Some s).
Proof.
  intros Hs. unfold _fallback_decode, encodings, fallback_loop, decode.
  rewrite utf8_decode_ascii by assumption.
  now rewrite strip_bom_ascii.
Qed.

Section PlainText.

Context {W : Type} `{Env W}.

Lemma detect_ascii s :
  detects_ascii -> is_ascii s ->
  detect (map byte_of s) = None \/ detect (map byte_of s) = Some s.
Proof.
  intros Hdet Hs. unfold detect.
  destruct charset_best as [best|] eqn:Hbest; [|now left].
  destruct (map byte_of s) as [|b raw] eqn:Hraw; [now left|].
  rewrite <- Hraw.
  destruct (best (map byte_of s)) as [[content|]|e] eqn:Hres; try now left.
  right. f_equal.
  rewrite (Hdet best _ content Hbest (ascii_bytes_small s Hs) Hres).
  rewrite ascii_bytes_back by assumption.
  now apply strip_bom_ascii.
Qed.

Lemma write_text_uploaded self path content w w' :
  _write_text_file self path content w = (Ok true, w') ->
  exists data w1,
    text_mode_bytes content = Ok data /\
    client_upload data (full_path_of self path) w1 = (Ok tt, w').
Proof.
  intros Hw. unfold _write_text_file in Hw. apply try_except_true in Hw.
  apply bind_ok in Hw as (_ & w1 & _ & Hw).
  apply bind_ok in Hw as (data & w2 & Hdata & Hw).
  apply bind_ok in Hw as ([] & w3 & Hup & Hw).
  unfold lift in Hdata. unfold ret in Hw.
  exists data, w1. split; congruence.
Qed.

(** C8, amended. An ASCII text written to a path of the plain-text kind
    is read back unchanged, on a disk that keeps what is uploaded, where
    the write returned [True], the platform writes a newline as a
    newline, and [charset_normalizer] is not installed or reads ASCII
    bytes as the ASCII text. *)
Theorem text_round_trip (self : YandexDiskClient) (path T : str) (w w' : W) :
  stores_faithfully ->
  detects_ascii ->
  os_linesep = nl ->
  is_ascii T ->
  ~ ends_like_docx path ->
  write_file self path T w = (Ok true, w') ->
  read_file self path w' = (Ok (Some T), w').
Proof.
  intros Hdisk Hdet Hsep HT Hpath Hw.
  rewrite <- lower_ends_docx in Hpath. apply not_true_is_false in Hpath.
  unfold write_file in Hw. unfold read_file. rewrite Hpath in *.
  apply write_text_uploaded in Hw as (data & w1 & Hdata & Hup).
  unfold text_mode_bytes in Hdata.
  rewrite Hsep, newlines_kept, utf8_encode_ascii in Hdata by assumption.
  injection Hdata as <-.
  apply Hdisk in Hup as [Hex Hdl].
  unfold _read_text_file. apply try_except_ok.
  rewrite (bind_step _ _ _ _ _ Hex). simpl.
  rewrite (bind_step _ _ _ _ _ Hdl).
  destruct (detect_ascii T Hdet HT) as [-> | ->]; [|reflexivity].
  unfold lift. now rewrite fallback_decode_ascii.
Qed.

End PlainText.

Lemma text_round_trip_witness :
  let w' := snd (write_file XLog (lit "anna/notes.txt") two_lines w_docs) in
  read_file XLog (lit "anna/notes.txt") w' = (Ok (Some two_lines), w').
Proof.
  intro w'. apply (text_round_trip XLog (lit "anna/notes.txt") two_lines w_docs w').
  - apply mem_stores_faithfully.
  - intros best raw content Hbest. discriminate Hbest.
  - reflexivity.
  - unfold is_ascii. vm_compute. repeat constructor.
  - rewrite <- lower_ends_docx. vm_compute. discriminate.
  - vm_compute. reflexivity.
Defined.

(** C8 as first stated fails, on a disk that keeps what is uploaded and
    with writes that returned [True]. With [charset_normalizer]
    installed the ASCII text [@] is read back as a space: [_read_text_file]
    returns the guess of the detector as it is. Where the line separator
    of the platform is CR LF the two lines [a] and [b] are read back
    with CR LF between them: the file is written in text mode and read
    as bytes. *)
Lemma text_round_trip_fails :
  (is_ascii at_sign /\ ~ ends_like_docx notes_path /\
   @stores_faithfully Mem env_detector /\
   let w' := snd (@write_file Mem env_detector XLog notes_path at_sign w_docs) in
   @write_file Mem env_detector XLog notes_path at_sign w_docs = (Ok true, w') /\
   @read_file Mem env_detector XLog notes_path w' = (Ok (Some (lit " ")), w') /\
   lit " " <> at_sign) /\
  (is_ascii a_b /\
   @stores_faithfully Mem env_crlf /\
   let w' := snd (@write_file Mem env_crlf XLog notes_path a_b w_docs) in
   @write_file Mem env_crlf XLog notes_path a_b w_docs = (Ok true, w') /\
   @read_file Mem env_crlf XLog notes_path w' = (Ok (Some a_crlf_b), w') /\
   a_crlf_b <> a_b).
Proof.
  split.
  - split; [unfold is_ascii; vm_compute; repeat constructor|].
    split; [rewrite <- lower_ends_docx; vm_compute; discriminate|].
    split; [exact mem_stores_faithfully|].
    cbv zeta. split; [vm_compute; reflexivity|].
    split; [vm_compute; reflexivity | vm_compute; discriminate].
  - split; [unfold is_ascii; vm_compute; repeat constructor|].
    split; [exact mem_stores_faithfully|].
    cbv zeta. split; [vm_compute; reflexivity|].
    split; [vm_compute; reflexivity | vm_compute; discriminate].
Qed.

(** ** The fallback decoder *)

Lemma handle_strict l :
  (exists s, handle Strict l = Ok s) \/ handle Strict l = Raise UnicodeDecodeError.
Proof.
  induction l as [|[c|] l IH]; simpl; eauto.
  destruct IH as [[s ->] | ->]; eauto.
Qed.

Lemma decode_strict enc raw :
  (exists s, decode enc Strict raw = Ok s) \/
  decode enc Strict raw = Raise UnicodeDecodeError.
Proof. destruct enc; apply handle_strict. Qed.

Lemma koi8_r_defined b : exists c, charmap_scan koi8_r_table [b] = [Some c].
Proof. destruct b; vm_compute; eauto. Qed.

(** KOI8-R gives every byte a character, so it decodes every input. *)
Lemma koi8_r_total raw : exists s, decode koi8_r Strict raw = Ok s.
Proof.
  unfold decode, charmap_decode.
  induction raw as [|b raw [s IH]]; [simpl; eauto|].
  change (charmap_scan koi8_r_table (b :: raw))
    with (charmap_scan koi8_r_table [b] ++ charmap_scan koi8_r_table raw).
  destruct (koi8_r_defined b) as (c & ->).
  simpl. rewrite IH. eauto.
Qed.

(** The last resort of [_fallback_decode] is never reached. *)
Lemma fallback_loop_returns raw : fallback_loop encodings raw <> None.
Proof.
  unfold encodings. simpl fallback_loop.
  destruct (utf8_decode Strict raw) as [s|[]]; try discriminate.
  destruct (charmap_decode cp1251_table Strict raw) as [s|[]]; try discriminate.
  destruct (koi8_r_total raw) as [s Hs]. simpl in Hs. rewrite Hs. discriminate.
Qed.

(** C4. For every byte string the fallback decoder returns what the first
    encoding of the list UTF-8, Windows-1251, KOI8-R, CP866, ISO-8859-5
    that decodes the input makes of it: the encodings before it in this
    order all fail on the input. Where the text starts with the
    byte-order mark U+FEFF, the text after the mark is returned. There is
    always such an encoding, so no input comes to the last resort, and
    the decoder never fails. *)
Theorem fallback_decode_first (raw : bytes) (path : str) :
  exists before enc after content,
    [utf_8; windows_1251; koi8_r; cp866; iso_8859_5] = before ++ enc :: after /\
    Forall (fun e => decode e Strict raw = Raise UnicodeDecodeError) before /\
    decode enc Strict raw = Ok content /\
    _fallback_decode raw path =
      Ok (Some (match content with
                | first :: rest => if first =? 0xFEFF then rest else content
                | [] => []
                end)).
Proof.
  assert (Hbom : forall content : str,
            strip_bom content
            = match content with
              | first :: rest => if first =? 0xFEFF then rest else content
              | [] => []
              end).
  { intros [|first rest]; [reflexivity|].
    unfold strip_bom. cbn [truthy startswith andb drop].
    rewrite andb_true_r, N.eqb_sym. now destruct (first =? 0xFEFF). }
  unfold _fallback_decode, encodings. simpl fallback_loop.
  destruct (decode_strict utf_8 raw) as [[s Hu] | Hu]; simpl in Hu; rewrite Hu.
  { exists [], utf_8, [windows_1251; koi8_r; cp866; iso_8859_5], s.
    rewrite <- Hbom. auto. }
  destruct (decode_strict windows_1251 raw) as [[s Hw] | Hw]; simpl in Hw; rewrite Hw.
  { exists [utf_8], windows_1251, [koi8_r; cp866; iso_8859_5], s.
    rewrite <- Hbom. repeat split; auto. }
  destruct (koi8_r_total raw) as [s Hk]. simpl in Hk. rewrite Hk.
  exists [utf_8; windows_1251], koi8_r, [cp866; iso_8859_5], s.
  rewrite <- Hbom. repeat split; auto.
Qed.

(** The last resort of [_fallback_decode], which no input reaches, decodes
    with [errors='ignore']: an invalid byte is left out, where
    [errors='replace'] would put U+FFFD in its place. *)
Remark last_resort_leaves_out :
  decode utf_8 Ignore [x68; xff; x69] = Ok (lit "hi") /\
  decode utf_8 Replace [x68; xff; x69] = Ok [104; 0xFFFD; 105].
Proof. vm_compute. auto. Qed.

(** Three inputs, one for each encoding that can be the first to decode:
    UTF-8 with a byte-order mark, a Windows-1251 word, and a byte that
    only KOI8-R knows. *)
Example fallback_decode_examples :
  _fallback_decode [xef; xbb; xbf; x68; x69] [] = Ok (Some (lit "hi")) /\
  _fallback_decode [xef; xe8; xf1; xfc; xec; xee] [] = Ok (Some (lit "письмо")) /\
  _fallback_decode [x98] [] = Ok (Some [0x2264]).
Proof. vm_compute. auto. Qed.

(** ** The files of a profile *)

Section ProfileFiles.

Context {W : Type} `{Env W}.

(** One turn of the loop binds the key of the file to a string, whatever
    the read did. *)
Lemma read_one_binds self profile_name file_name (files : FilesDict) w :
  let read := read_file (disk self) (profile_name ++ lit "/" ++ file_name) w in
  read_one self profile_name file_name files w =
    (Ok (<[key_of file_name := Some (content_or_empty (fst read))]> files), snd read).
Proof.
  unfold read_one, try_except, bind, ret, key_of.
  destruct (read_file (disk self) (profile_name ++ lit "/" ++ file_name) w)
    as [[[content|]|e] w1]; simpl; eauto.
  destruct content; simpl; eauto.
Qed.

(** C5. Whatever the disk does, [get_profile_files] returns a
    dictionary whose keys are exactly [key], [king], [rules], [library]
    and [welcome], each bound to a string: the text read for the file, or
    the empty string when there was none. *)
Theorem get_profile_files_five_keys (self : ProfileManager) (profile_name : str) (w : W) :
  exists (files : FilesDict) (w' : W),
    get_profile_files self profile_name w = (Ok files, w') /\
    dom files = {[ lit "key"; lit "king"; lit "rules"; lit "library"; lit "welcome" ]} /\
    (forall key value, files !! key = Some value -> exists text, value = Some text) /\
    Forall (fun file_name =>
              exists wi,
                files !! key_of file_name =
                  Some (Some (content_or_empty
                                (fst (read_file (disk self)
                                        (profile_name ++ lit "/" ++ file_name) wi)))))
           PROFILE_FILES.
Proof.
  unfold get_profile_files, PROFILE_FILES. cbn [read_each].
  pose proof (read_one_binds self profile_name (lit "key.docx") ∅ w) as H1.
  cbv zeta in H1. set (w1 := snd _) in H1.
  rewrite (bind_step _ _ _ _ _ H1). clear H1. cbv beta.
  match goal with |- context [read_one _ _ _ ?f] => set (f1 := f) end.
  pose proof (read_one_binds self profile_name (lit "king.docx") f1 w1) as H2.
  cbv zeta in H2. set (w2 := snd _) in H2.
  rewrite (bind_step _ _ _ _ _ H2). clear H2. cbv beta.
  match goal with |- context [read_one _ _ _ ?f] => set (f2 := f) end.
  pose proof (read_one_binds self profile_name (lit "rules.docx") f2 w2) as H3.
  cbv zeta in H3. set (w3 := snd _) in H3.
  rewrite (bind_step _ _ _ _ _ H3). clear H3. cbv beta.
  match goal with |- context [read_one _ _ _ ?f] => set (f3 := f) end.
  pose proof (read_one_binds self profile_name (lit "library.docx") f3 w3) as H4.
  cbv zeta in H4. set (w4 := snd _) in H4.
  rewrite (bind_step _ _ _ _ _ H4). clear H4. cbv beta.
  match goal with |- context [read_one _ _ _ ?f] => set (f4 := f) end.
  pose proof (read_one_binds self profile_name (lit "welcome.docx") f4 w4) as H5.
  cbv zeta in H5. set (w5 := snd _) in H5.
  rewrite (bind_step _ _ _ _ _ H5). clear H5. cbv beta. unfold ret.
  match goal with |- context [(Ok ?f, w5)] => set (f5 := f) end.
  exists f5, w5. split; [reflexivity|].
  assert (Hk1 : key_of (lit "key.docx") = lit "key") by (vm_compute; reflexivity).
  assert (Hk2 : key_of (lit "king.docx") = lit "king") by (vm_compute; reflexivity).
  assert (Hk3 : key_of (lit "rules.docx") = lit "rules") by (vm_compute; reflexivity).
  assert (Hk4 : key_of (lit "library.docx") = lit "library") by (vm_compute; reflexivity).
  assert (Hk5 : key_of (lit "welcome.docx") = lit "welcome") by (vm_compute; reflexivity).
  assert (Hne : NoDup [lit "key"; lit "king"; lit "rules"; lit "library"; lit "welcome"]).
  { vm_compute. repeat constructor; rewrite ?list_elem_of_In; simpl; intuition discriminate. }
  subst f5 f4 f3 f2 f1. rewrite Hk1, Hk2, Hk3, Hk4, Hk5.
  generalize dependent (lit "key"). generalize dependent (lit "king").
  generalize dependent (lit "rules"). generalize dependent (lit "library").
  generalize dependent (lit "welcome").
  intros k5 Hk5 k4 Hk4 k3 Hk3 k2 Hk2 k1 Hk1 Hne.
  repeat match goal with H : NoDup (_ :: _) |- _ => apply NoDup_cons in H as [? H] end.
  assert (k1 <> k2 /\ k1 <> k3 /\ k1 <> k4 /\ k1 <> k5 /\ k2 <> k3 /\ k2 <> k4 /\
          k2 <> k5 /\ k3 <> k4 /\ k3 <> k5 /\ k4 <> k5) as (?&?&?&?&?&?&?&?&?&?)
    by set_solver.
  unfold FilesDict, str, char in *.
  split; [|split].
  - rewrite !dom_insert_L, dom_empty_L. apply set_eq. intros k.
    rewrite !elem_of_union, !elem_of_singleton, elem_of_empty. tauto.
  - intros key value Hl.
    repeat (apply lookup_insert_Some in Hl as [[_ <-] | [_ Hl]]; [eauto|]).
    now rewrite lookup_empty in Hl.
  - repeat constructor; rewrite ?Hk1, ?Hk2, ?Hk3, ?Hk4, ?Hk5.
    + exists w. rewrite ?lookup_insert_ne by congruence. apply lookup_insert_eq.
    + exists w1. rewrite ?lookup_insert_ne by congruence. apply lookup_insert_eq.
    + exists w2. rewrite ?lookup_insert_ne by congruence. apply lookup_insert_eq.
    + exists w3. rewrite ?lookup_insert_ne by congruence. apply lookup_insert_eq.
    + exists w4. rewrite ?lookup_insert_ne by congruence. apply lookup_insert_eq.
Qed.

End ProfileFiles.

(** ** Dispatch on the extension *)

Section Dispatch.

Context {W : Type} `{Env W}.

Lemma read_docx_absent self path w w' :
  client_exists (full_path_of self path) w = (Ok false, w') ->
  read_docx self path w = (Ok None, w').
Proof.
  intros Hex. unfold read_docx. apply try_except_ok.
  now rewrite (bind_step _ _ _ _ _ Hex).
Qed.

Lemma read_text_absent self path w w' :
  client_exists (full_path_of self path) w = (Ok false, w') ->
  _read_text_file self path w = (Ok None, w').
Proof.
  intros Hex. unfold _read_text_file. apply try_except_ok.
  now rewrite (bind_step _ _ _ _ _ Hex).
Qed.

(** C7, amended. [read_file] and [write_file] go by the extension without
    regard to the case of its letters: a path whose last five characters
    lower to [.docx] is read by [read_docx] and written by [write_docx],
    every other path by [_read_text_file] and [_write_text_file]. When the
    disk says the path does not exist, [read_file] returns [None]. *)
Theorem dispatch_by_extension (self : YandexDiskClient) (path : str) :
  (ends_like_docx path ->
     read_file self path = read_docx self path /\
     forall content, write_file self path content = write_docx self path content) /\
  (~ ends_like_docx path ->
     read_file self path = _read_text_file self path /\
     forall content, write_file self path content = _write_text_file self path content) /\
  (forall w w',
     client_exists (full_path_of self path) w = (Ok false, w') ->
     read_file self path w = (Ok None, w')).
Proof.
  unfold read_file, write_file.
  destruct (endswith (lit ".docx") (lower path)) eqn:Hext.
  - apply lower_ends_docx in Hext. repeat split; try tauto.
    intros w w'. apply read_docx_absent.
  - assert (Hno : ~ ends_like_docx path).
    { rewrite <- lower_ends_docx. congruence. }
    repeat split; try tauto.
    intros w w'. apply read_text_absent.
Qed.

End Dispatch.

(** C7, as stated, fails: [anna/KING.DOCX] does not end in [.docx], and
    it is read by [read_docx], which gives another text than
    [_read_text_file] gives. *)
Lemma read_file_capital_extension :
  endswith (lit ".docx") (lit "anna/KING.DOCX") = false /\
  fst (read_file XLog (lit "anna/KING.DOCX") w_capitals) = Ok (Some (lit "hello")) /\
  fst (read_docx XLog (lit "anna/KING.DOCX") w_capitals) = Ok (Some (lit "hello")) /\
  fst (_read_text_file XLog (lit "anna/KING.DOCX") w_capitals) = Ok (Some (lit "PKhello")).
Proof. vm_compute. auto. Qed.

(** ** Saving a message *)

Lemma append_is_no_parameter :
  bind_arguments _write_text_file_params 2 ["append"%string] = Raise TypeError.
Proof. reflexivity. Qed.

Section SaveMessage.

Context {W : Type} `{Env W}.

Lemma ensure_folder_exists_returns self path w :
  exists b, ensure_folder_exists self path w
            = (Ok b, snd (ensure_folder_exists self path w)).
Proof.
  unfold ensure_folder_exists, try_except, bind, ret.
  destruct (ensure_parts _ _ w) as [[[]|e] w1]; simpl; eauto.
Qed.

(** [_write_text_file] has no parameter [append], so the call in
    [save_message] raises [TypeError] before anything is written: all that
    [save_message] does to the world is what [ensure_folder_exists] does. *)
Lemma save_message_writes_nothing self profile_name role text timestamp w :
  save_message self profile_name role text timestamp w =
    (Ok tt,
     snd (ensure_folder_exists (disk self)
            (profile_name ++ lit "/logs/" ++ strftime (lit "%Y/%m/%d") timestamp) w)).
Proof.
  unfold save_message, call. rewrite append_is_no_parameter.
  unfold try_except, bind at 1.
  destruct (ensure_folder_exists_returns (disk self)
              (profile_name ++ lit "/logs/" ++ strftime (lit "%Y/%m/%d") timestamp) w)
    as [b ->].
  reflexivity.
Qed.

End SaveMessage.

(** C1 fails on the code. A message saved at 10:20:30 on 15 March 2024
    leaves the log of that day as it was, without the line
    [[10:20:30] user: hi]; and where the day has no log yet, the folder
    is made and no log file. *)
Theorem save_message_appends_nothing :
  let timestamp := at_time 2024 3 15 10 20 30 in
  let log := lit "/XLog/anna/logs/2024/03/15/log.txt" in
  let entry := lit "[10:20:30] user: hi" ++ nl in
  let after := snd (save_message manager (lit "anna") (lit "user") (lit "hi") timestamp w_log) in
  let fresh := snd (save_message manager (lit "anna") (lit "user") (lit "hi") timestamp w_docs) in
  nodes w_log !! log = Some (File (bytes_of old_entry)) /\
  nodes after !! log = Some (File (bytes_of old_entry)) /\
  bytes_of old_entry <> bytes_of (old_entry ++ entry) /\
  nodes w_docs !! log = None /\
  nodes fresh !! lit "/XLog/anna/logs/2024/03/15" = Some Folder /\
  nodes fresh !! log = None.
Proof. vm_compute. repeat split; discriminate. Qed.

(** ** The first day of a month *)

Section FirstDay.

Context {W : Type} `{Env W}.

(** On the first day of a month [today.day - 1] is 0, which no month
    has, and [replace] raises before any log is read. *)
Lemma get_recent_messages_first_day self profile_name limit w today now w1 w2 :
  datetime_now w = (Ok today, w1) ->
  datetime_now w1 = (Ok now, w2) ->
  day today = 1%Z ->
  get_recent_messages self profile_name limit w = (Raise ValueError, w2).
Proof.
  intros Ht Hn Hd. unfold get_recent_messages.
  rewrite (bind_step _ _ _ _ _ Ht), (bind_step _ _ _ _ _ Hn).
  rewrite Hd. reflexivity.
Qed.

End FirstDay.

(** C2 fails on the code. On 1 March 2024 [get_recent_messages] raises
    [ValueError], and so does [build_context], which calls it outside
    any [try]. *)
Theorem first_day_raises :
  get_recent_messages manager (lit "anna") 10 w_first_day = (Raise ValueError, w_first_day) /\
  build_context manager (lit "anna") 10 w_first_day = (Raise ValueError, w_first_day).
Proof.
  split.
  - now apply (get_recent_messages_first_day manager (lit "anna") 10 w_first_day
                 (clock w_first_day) (clock w_first_day) w_first_day w_first_day).
  - vm_compute. reflexivity.
Qed.

(** ** The context *)

Lemma truthy_dict_item (files : FilesDict) key :
  truthy_opt (dict_get files key) = truthy (dict_item files key).
Proof. unfold dict_item. now destruct (dict_get files key). Qed.

Section BuildContext.

Context {W : Type} `{Env W}.

(** Where [get_recent_messages] returns, the context is the sections for
    [king], [rules], [library] and the recent messages in this order,
    those with an empty text left out, joined with a newline; a section
    ends in a newline itself, so an empty line stands between two. *)
Lemma build_context_sections self profile_name limit w files w1 recent w2 :
  get_profile_files self profile_name w = (Ok files, w1) ->
  get_recent_messages self profile_name limit w1 = (Ok recent, w2) ->
  build_context self profile_name limit w =
    (Ok (join nl (section_of "ТЫ — ЛИЧНОСТЬ:" (dict_item files (lit "king"))
                  ++ section_of "ПРАВИЛА ОБЩЕНИЯ:" (dict_item files (lit "rules"))
                  ++ section_of "ТВОИ ЗНАНИЯ И ОПЫТ:" (dict_item files (lit "library"))
                  ++ section_of "ПОСЛЕДНИЕ СООБЩЕНИЯ В ЧАТЕ:" recent)),
     w2).
Proof.
  intros Hf Hr. unfold build_context.
  rewrite (bind_step _ _ _ _ _ Hf), (bind_step _ _ _ _ _ Hr).
  rewrite !truthy_dict_item. unfold section_of, ret.
  destruct (truthy (dict_item files (lit "king")));
    destruct (truthy (dict_item files (lit "rules")));
    destruct (truthy (dict_item files (lit "library")));
    destruct (truthy recent); reflexivity.
Qed.

(** Where [get_recent_messages] raises, [build_context] raises. *)
Lemma build_context_raises self profile_name limit w files w1 e w2 :
  get_profile_files self profile_name w = (Ok files, w1) ->
  get_recent_messages self profile_name limit w1 = (Raise e, w2) ->
  build_context self profile_name limit w = (Raise e, w2).
Proof.
  intros Hf Hr. unfold build_context.
  rewrite (bind_step _ _ _ _ _ Hf).
  now rewrite (bind_raise _ _ _ _ _ Hr).
Qed.

End BuildContext.

(** On the fifteenth the two cases of C6 come out as it says: nothing
    for a profile without documents and log, the one section for a
    profile with rules only. *)
Example build_context_mid_month :
  build_context manager (lit "anna") 10 w_docs = (Ok [], w_docs) /\
  build_context manager (lit "anna") 10 (w_rules_on 15) =
    (Ok (lit "ПРАВИЛА ОБЩЕНИЯ:" ++ nl ++ rules_text ++ nl), w_rules_on 15).
Proof. vm_compute. auto. Qed.

(** C6 fails on the code. On 1 March 2024 [build_context] raises
    [ValueError] for a profile whose five documents are empty and that
    has no log, where C6 has the empty string, and for a profile with
    rules only, where C6 has the section of the rules. *)
Theorem build_context_first_day :
  (forall key, dict_item (returned_files (get_profile_files manager (lit "anna") w_first_day)) key = []) /\
  build_context manager (lit "anna") 10 w_first_day = (Raise ValueError, w_first_day) /\
  dict_item (returned_files (get_profile_files manager (lit "anna") (w_rules_on 1)))
    (lit "rules") = rules_text /\
  build_context manager (lit "anna") 10 (w_rules_on 1) = (Raise ValueError, w_rules_on 1).
Proof.
  repeat split; try (vm_compute; reflexivity).
  intros key. unfold dict_item, dict_get.
  assert (Hfiles : returned_files (get_profile_files manager (lit "anna") w_first_day)
                   = list_to_map (map (fun k => (k, Some [])) (map key_of PROFILE_FILES)))
    by (vm_compute; reflexivity).
  rewrite Hfiles.
  destruct (list_to_map _ !! key) as [v|] eqn:Hv; [|reflexivity].
  apply elem_of_list_to_map_2 in Hv.
  apply list_elem_of_fmap in Hv as (k & Hkv & _).
  now injection Hkv as _ ->.
Qed.

(** ** The recent messages *)

Lemma lastn_length {A} n (l : list A) : length (lastn n l) = Nat.min n (length l).
Proof. unfold lastn. rewrite length_drop. lia. Qed.

Lemma lastn_suffix {A} n (l : list A) : exists front, l = front ++ lastn n l.
Proof. unfold lastn. exists (take (length l - n) l). now rewrite take_drop. Qed.

Lemma lastn_all {A} n (l : list A) : (length l <= n)%nat -> lastn n l = l.
Proof. unfold lastn. intros Hn. now replace (length l - n)%nat with 0%nat by lia. Qed.

(** For a positive [limit], lines 151 to 153 keep the last [limit] lines
    of the stripped text. *)
Lemma last_messages_positive text limit :
  (0 < limit)%Z -> last_messages text limit = last_lines (Z.to_nat limit) text.
Proof.
  intros Hpos. unfold last_messages, last_lines, lastn, slice_from.
  set (lines := split 10 (strip text)).
  destruct (Z.gtb_spec (Z.of_nat (length lines)) limit) as [Hgt | Hle].
  - replace (- limit <? 0)%Z with true by (symmetry; apply Z.ltb_lt; lia).
    do 2 f_equal. lia.
  - now replace (length lines - Z.to_nat limit)%nat with 0%nat by lia.
Qed.

Lemma last_lines_empty n : last_lines n [] = [].
Proof.
  unfold last_lines, lastn. simpl.
  destruct (1 - n)%nat as [|[|k]]; reflexivity.
Qed.

Section RecentMessages.

Context {W : Type} `{Env W}.

Lemma _read_text_file_returns self path w :
  exists content, _read_text_file self path w
                  = (Ok content, snd (_read_text_file self path w)).
Proof.
  unfold _read_text_file, try_except.
  match goal with |- context [bind ?m ?k w] => destruct (bind m k w) as [[c|e] w1] end;
    simpl; eauto.
Qed.

(** C3, amended. For a positive [limit], and on a day whose number less
    one is a day of the month the clock is in, [get_recent_messages] reads
    the log of today and, only when that is empty or not there, the log of
    yesterday. From the text it found it strips the whitespace at both
    ends, splits it at the newlines, keeps the last [limit] lines, all of
    them when there are fewer, and joins them with newlines; when both
    logs are empty it returns the empty string. *)
Theorem get_recent_messages_tail (self : ProfileManager) (profile_name : str)
    (limit : Z) (w w1 w2 : W) (today now yesterday : datetime) :
  datetime_now w = (Ok today, w1) ->
  datetime_now w1 = (Ok now, w2) ->
  replace_day now (day today - 1) = Ok yesterday ->
  (0 < limit)%Z ->
  let todays := _read_text_file (disk self) (log_path_of profile_name today) w2 in
  let yesterdays :=
    _read_text_file (disk self) (log_path_of profile_name yesterday) (snd todays) in
  get_recent_messages self profile_name limit w =
    (if truthy (content_or_empty (fst todays))
     then (Ok (last_lines (Z.to_nat limit) (content_or_empty (fst todays))), snd todays)
     else (Ok (last_lines (Z.to_nat limit) (content_or_empty (fst yesterdays))),
           snd yesterdays)).
Proof.
  intros Ht Hn Hy Hpos todays yesterdays. unfold get_recent_messages.
  rewrite (bind_step _ _ _ _ _ Ht), (bind_step _ _ _ _ _ Hn).
  unfold lift at 1. unfold bind at 1. rewrite Hy.
  destruct (_read_text_file_returns (disk self) (log_path_of profile_name today) w2)
    as [c1 H1].
  fold todays in H1. rewrite (bind_step _ _ _ _ _ H1).
  replace (fst todays) with (Ok c1 : result (option str)) by now rewrite H1.
  destruct c1 as [[|x text]|]; simpl truthy_opt; simpl content_or_empty; simpl truthy;
    cbv iota; simpl negb; cbv iota.
  - destruct (_read_text_file_returns (disk self) (log_path_of profile_name yesterday)
                (snd todays)) as [c2 H2].
    fold yesterdays in H2. rewrite (bind_step _ _ _ _ _ H2).
    replace (fst yesterdays) with (Ok c2 : result (option str)) by now rewrite H2.
    destruct c2 as [[|y text]|]; simpl content_or_empty; unfold ret;
      rewrite ?last_lines_empty, ?last_messages_positive by assumption; reflexivity.
  - unfold ret, bind. now rewrite last_messages_positive.
  - destruct (_read_text_file_returns (disk self) (log_path_of profile_name yesterday)
                (snd todays)) as [c2 H2].
    fold yesterdays in H2. rewrite (bind_step _ _ _ _ _ H2).
    replace (fst yesterdays) with (Ok c2 : result (option str)) by now rewrite H2.
    destruct c2 as [[|y text]|]; simpl content_or_empty; unfold ret;
      rewrite ?last_lines_empty, ?last_messages_positive by assumption; reflexivity.
Qed.

End RecentMessages.

Lemma get_recent_messages_tail_witness :
  get_recent_messages manager (lit "anna") 3 (w_with_log five_lines) =
    (Ok (lit "[09:00:03] user: three" ++ nl ++ lit "[09:00:04] bot: four" ++ nl ++
         lit "[09:00:05] user: five"),
     w_with_log five_lines).
Proof.
  set (w := w_with_log five_lines).
  rewrite (get_recent_messages_tail manager (lit "anna") 3 w w w
             (clock w) (clock w) (at_time 2024 3 14 10 20 30));
    [vm_compute; reflexivity | reflexivity | reflexivity | reflexivity | lia].
Defined.

(** C3, as stated, fails: the log of the day is [  first], [second], and
    with [limit] 3 its last lines are these two as they stand, while
    [get_recent_messages] returns the first without its indentation. *)
Lemma get_recent_messages_strips :
  fst (_read_text_file XLog (log_path_of (lit "anna") (clock (w_with_log indented_log)))
         (w_with_log indented_log)) = Ok (Some indented_log) /\
  fst (get_recent_messages manager (lit "anna") 3 (w_with_log indented_log))
    = Ok (lit "first" ++ nl ++ lit "second") /\
  last_lines_unstripped 3 indented_log = lit "  first" ++ nl ++ lit "second" /\
  lit "first" ++ nl ++ lit "second" <> last_lines_unstripped 3 indented_log.
Proof. vm_compute. repeat split; discriminate. Qed.

(** With [limit] 0 the slice [lines[-0:]] is the whole list. *)
Remark get_recent_messages_limit_zero :
  fst (get_recent_messages manager (lit "anna") 0 (w_with_log five_lines))
    = Ok (strip five_lines).
Proof. vm_compute. reflexivity. Qed.

(** ** The library *)

Lemma docx_path_ends_like_docx (front name : str) :
  endswith (lit ".docx") (lower (front ++ lit "/" ++ name ++ lit ".docx")) = true.
Proof.
  apply lower_ends_docx. exists (front ++ lit "/" ++ name), (lit ".docx").
  split; [|reflexivity]. now rewrite <- !app_assoc.
Qed.

Lemma library_file_name : lit "library" ++ lit ".docx" = lit "library.docx".
Proof. vm_compute. reflexivity. Qed.

Lemma library_is_docx profile_name :
  endswith (lit ".docx") (lower (library_path profile_name)) = true.
Proof.
  unfold library_path. rewrite <- library_file_name.
  apply docx_path_ends_like_docx.
Qed.

Section Library.

Context {W : Type} `{Env W}.

Hypothesis reads_pure : reads_change_nothing.

Lemma read_docx_pure self path w : snd (read_docx self path w) = w.
Proof.
  unfold read_docx, try_except, bind, ret, lift.
  destruct (reads_pure (full_path_of self path) w) as [Hex Hdl].
  destruct (client_exists (full_path_of self path) w) as [[[]|e] w1];
    simpl in Hex; subst w1; simpl; try reflexivity.
  destruct (client_download (full_path_of self path) w) as [[blob|e] w1];
    simpl in Hdl; subst w1; simpl; try reflexivity.
  now destruct (Document_open blob).
Qed.

Lemma _read_text_file_pure self path w : snd (_read_text_file self path w) = w.
Proof.
  unfold _read_text_file, try_except, bind, ret, lift.
  destruct (reads_pure (full_path_of self path) w) as [Hex Hdl].
  destruct (client_exists (full_path_of self path) w) as [[[]|e] w1];
    simpl in Hex; subst w1; simpl; try reflexivity.
  destruct (client_download (full_path_of self path) w) as [[raw|e] w1];
    simpl in Hdl; subst w1; simpl; try reflexivity.
  destruct (detect raw); [reflexivity|].
  now destruct (_fallback_decode raw path) as [[c|]|e].
Qed.

Lemma read_file_pure self path w : snd (read_file self path w) = w.
Proof.
  unfold read_file. destruct (endswith _ _);
    [apply read_docx_pure | apply _read_text_file_pure].
Qed.

Lemma read_one_pure self profile_name file_name (files : FilesDict) w :
  read_one self profile_name file_name files w =
    (Ok (<[key_of file_name :=
             Some (content_or_empty
                     (fst (read_file (disk self)
                             (profile_name ++ lit "/" ++ file_name) w)))]> files), w).
Proof.
  pose proof (read_one_binds self profile_name file_name files w) as Hr.
  cbv zeta in Hr. now rewrite read_file_pure in Hr.
Qed.

(** Reading the files of a profile leaves the world as it is, and under
    [library] stands what [read_docx] makes of [library.docx]. *)
Lemma get_profile_files_library self profile_name w :
  exists files : FilesDict,
    get_profile_files self profile_name w = (Ok files, w) /\
    dict_get files (lit "library") =
      Some (content_or_empty
              (fst (read_docx (disk self) (library_path profile_name) w))).
Proof.
  unfold get_profile_files, PROFILE_FILES. cbn [read_each].
  rewrite (bind_step _ _ _ _ _ (read_one_pure _ _ _ _ _)). cbv beta.
  rewrite (bind_step _ _ _ _ _ (read_one_pure _ _ _ _ _)). cbv beta.
  rewrite (bind_step _ _ _ _ _ (read_one_pure _ _ _ _ _)). cbv beta.
  rewrite (bind_step _ _ _ _ _ (read_one_pure _ _ _ _ _)). cbv beta.
  rewrite (bind_step _ _ _ _ _ (read_one_pure _ _ _ _ _)). cbv beta.
  eexists. split; [reflexivity|].
  assert (Hk4 : key_of (lit "library.docx") = lit "library") by (vm_compute; reflexivity).
  assert (Hk5 : key_of (lit "welcome.docx") = lit "library" -> False)
    by (vm_compute; discriminate).
  unfold dict_get. unfold FilesDict, str, char in *.
  rewrite lookup_insert_ne by exact Hk5.
  rewrite Hk4, lookup_insert_eq.
  pose proof (library_is_docx profile_name) as Hd.
  unfold library_path, str, char in *. unfold read_file. now rewrite Hd.
Qed.

Lemma read_profile_file_library self profile_name w :
  read_profile_file self profile_name (lit "library") w =
    (Ok (Some (content_or_empty
                 (fst (read_docx (disk self) (library_path profile_name) w)))), w).
Proof.
  destruct (get_profile_files_library self profile_name w) as (files & Hf & Hl).
  unfold read_profile_file. apply try_except_ok.
  rewrite (bind_step _ _ _ _ _ Hf). unfold ret. now rewrite Hl.
Qed.

Hypothesis disk_faithful : stores_faithfully.

(** One call: the library reads afterwards as the text alone when it was
    empty, and as what it was, then the block with the text, when not. *)
Lemma add_to_library_once self profile_name text w w' now wc :
  datetime_now w = (Ok now, wc) ->
  let current :=
    content_or_empty (fst (read_docx (disk self) (library_path profile_name) w)) in
  let new_content :=
    if truthy current
    then current ++ added_block (strftime (lit "%Y-%m-%d %H:%M:%S") now) text
    else text in
  keeps_paragraphs (split 10 new_content) ->
  add_to_library self profile_name text w = (Ok true, w') ->
  read_docx (disk self) (library_path profile_name) w' = (Ok (Some new_content), w').
Proof.
  intros Hnow current new_content Hdoc Hadd.
  unfold add_to_library in Hadd. apply try_except_true in Hadd.
  rewrite (bind_step _ _ _ _ _ (read_profile_file_library self profile_name w)) in Hadd.
  rewrite (bind_step _ _ _ _ _ Hnow) in Hadd.
  fold current in Hadd. simpl truthy_opt in Hadd. simpl default in Hadd.
  unfold save_profile_file, write_file in Hadd.
  rewrite library_file_name in Hadd. fold (library_path profile_name) in Hadd.
  rewrite library_is_docx in Hadd.
  assert (Hnew : (if truthy current
                  then current ++ nl ++ nl ++ lit "[" ++
                       strftime (lit "%Y-%m-%d %H:%M:%S") now ++
                       lit "] ДОБАВЛЕНО:" ++ nl ++ text
                  else text) = new_content).
  { unfold new_content, added_block. now destruct (truthy current). }
  rewrite Hnew in Hadd.
  apply write_docx_uploaded in Hadd as (blob & w1 & Hsave & Hup).
  apply disk_faithful in Hup as [Hex Hdl].
  rewrite (read_docx_stored _ _ blob (split 10 new_content) w' Hex Hdl (Hdoc blob Hsave)).
  unfold nl. now rewrite join_split.
Qed.

End Library.

(** C9, amended. [add_to_library] reads the library; where it is empty
    the new text becomes all of it, where it is not, an empty line, a
    marker with the time and the new text are put after it. Two calls
    with [A], not empty, and then [B] on an empty library leave [A] and
    after it the block with the time of the second call and [B]. The disk
    keeps what is uploaded, reading changes nothing, and the document
    format keeps the paragraphs of the two documents written. *)
Theorem add_to_library_twice {W : Type} `{Env W} (self : ProfileManager)
    (profile_name A B : str) (w0 w1 w2 wc0 wc1 : W) (now0 now1 : datetime) :
  reads_change_nothing ->
  stores_faithfully ->
  content_or_empty (fst (read_docx (disk self) (library_path profile_name) w0)) = [] ->
  A <> [] ->
  datetime_now w0 = (Ok now0, wc0) ->
  datetime_now w1 = (Ok now1, wc1) ->
  let block := added_block (strftime (lit "%Y-%m-%d %H:%M:%S") now1) B in
  keeps_paragraphs (split 10 A) ->
  keeps_paragraphs (split 10 (A ++ block)) ->
  add_to_library self profile_name A w0 = (Ok true, w1) ->
  add_to_library self profile_name B w1 = (Ok true, w2) ->
  read_docx (disk self) (library_path profile_name) w1 = (Ok (Some A), w1) /\
  read_docx (disk self) (library_path profile_name) w2 = (Ok (Some (A ++ block)), w2).
Proof.
  intros Hread Hdisk Hempty HA Hn0 Hn1 block HdA HdB Hadd1 Hadd2.
  assert (H1 : read_docx (disk self) (library_path profile_name) w1 = (Ok (Some A), w1)).
  { pose proof (add_to_library_once Hread Hdisk self profile_name A w0 w1 now0 wc0 Hn0) as Hs.
    cbv zeta in Hs. rewrite Hempty in Hs. simpl truthy in Hs. cbv iota in Hs. auto. }
  split; [exact H1|].
  pose proof (add_to_library_once Hread Hdisk self profile_name B w1 w2 now1 wc1 Hn1) as Hs.
  cbv zeta in Hs. rewrite H1 in Hs. simpl content_or_empty in Hs.
  destruct A as [|a A]; [congruence|]. simpl truthy in Hs. cbv iota in Hs. auto.
Qed.

Lemma add_to_library_twice_witness :
  let w1 := snd (add_to_library manager (lit "anna") fact_a w_docs) in
  let w2 := snd (add_to_library manager (lit "anna") fact_b w1) in
  read_docx XLog (library_path (lit "anna")) w2 =
    (Ok (Some (fact_a ++ added_block (lit "2024-03-15 10:20:30") fact_b)), w2).
Proof.
  intros w1 w2.
  refine (proj2 (add_to_library_twice manager (lit "anna") fact_a fact_b
                   w_docs w1 w2 w_docs w1 (clock w_docs) (clock w_docs)
                   mem_reads_change_nothing mem_stores_faithfully _ _ _ _ _ _ _ _)).
  - vm_compute. reflexivity.
  - discriminate.
  - reflexivity.
  - vm_compute. reflexivity.
  - intros blob Hb. vm_compute in Hb. injection Hb as <-. vm_compute. reflexivity.
  - intros blob Hb. vm_compute in Hb. injection Hb as <-. vm_compute. reflexivity.
  - vm_compute. reflexivity.
  - vm_compute. reflexivity.
Defined.

(** C9, as stated, fails for an empty [A]: after the two calls the
    library is [B] alone, and no block that starts with an empty line. *)
Lemma add_to_library_empty_first :
  let w1 := snd (add_to_library manager (lit "anna") [] w_docs) in
  let w2 := snd (add_to_library manager (lit "anna") fact_b w1) in
  fst (add_to_library manager (lit "anna") [] w_docs) = Ok true /\
  fst (add_to_library manager (lit "anna") fact_b w1) = Ok true /\
  fst (read_docx XLog (library_path (lit "anna")) w2) = Ok (Some fact_b) /\
  forall timestamp, fact_b <> [] ++ added_block timestamp fact_b.
Proof.
  repeat split; try (vm_compute; reflexivity).
  intros timestamp. vm_compute. discriminate.
Qed.

(** * Further properties *)

(** ** UTF-8 there and back *)

Ltac divlia := zify; Z.to_euclidean_division_equations; lia.

Ltac decide_tests :=
  repeat match goal with
         | |- context [(?a <? ?b)%N] =>
             first [ replace (a <? b)%N with true by (symmetry; apply N.ltb_lt; divlia)
                   | replace (a <? b)%N with false by (symmetry; apply N.ltb_ge; divlia) ]
         | |- context [(?a <=? ?b)%N] =>
             first [ replace (a <=? b)%N with true by (symmetry; apply N.leb_le; divlia)
                   | replace (a <=? b)%N with false by (symmetry; apply N.leb_gt; divlia) ]
         end.

Lemma scan_two b1 b2 rest n1 n2 c :
  Byte.to_N b1 = n1 -> Byte.to_N b2 = n2 ->
  0xC2 <= n1 < 0xE0 -> 0x80 <= n2 <= 0xBF ->
  (n1 - 0xC0) * 64 + (n2 - 0x80) = c ->
  utf8_scan (b1 :: b2 :: rest) = Some c :: utf8_scan rest.
Proof.
  intros H1 H2 Hr1 Hr2 Hc.
  cbn [utf8_scan]. unfold is_cont, low6. rewrite H1, H2.
  decide_tests. cbn [andb]. now rewrite Hc.
Qed.

Lemma scan_three b1 b2 b3 rest n1 c :
  Byte.to_N b1 = n1 -> 0xE0 <= n1 < 0xF0 ->
  second_of_3 n1 b2 = true -> is_cont b3 = true ->
  ((n1 - 0xE0) * 64 + low6 b2) * 64 + low6 b3 = c ->
  utf8_scan (b1 :: b2 :: b3 :: rest) = Some c :: utf8_scan rest.
Proof.
  intros H1 Hr1 H2 H3 Hc.
  cbn [utf8_scan]. rewrite H1, H2, H3.
  decide_tests. now rewrite Hc.
Qed.

Lemma scan_four b1 b2 b3 b4 rest n1 c :
  Byte.to_N b1 = n1 -> 0xF0 <= n1 < 0xF5 ->
  second_of_4 n1 b2 = true -> is_cont b3 = true -> is_cont b4 = true ->
  (((n1 - 0xF0) * 64 + low6 b2) * 64 + low6 b3) * 64 + low6 b4 = c ->
  utf8_scan (b1 :: b2 :: b3 :: b4 :: rest) = Some c :: utf8_scan rest.
Proof.
  intros H1 Hr1 H2 H3 H4 Hc.
  cbn [utf8_scan]. rewrite H1, H2, H3, H4.
  decide_tests. now rewrite Hc.
Qed.

Lemma is_cont_byte n : n < 64 -> is_cont (byte_of (0x80 + n)) = true.
Proof.
  intros Hn. unfold is_cont. rewrite to_N_byte_of by lia.
  apply andb_true_intro. split; apply N.leb_le; lia.
Qed.

Lemma low6_byte n : n < 64 -> low6 (byte_of (0x80 + n)) = n.
Proof. intros Hn. unfold low6. rewrite to_N_byte_of by lia. lia. Qed.

(** The decoder reads the bytes of a character as that character and
    goes on behind them. *)
Lemma utf8_scan_encoded c bs rest :
  utf8_encode_char c = Some bs ->
  utf8_scan (bs ++ rest) = Some c :: utf8_scan rest.
Proof.
  unfold utf8_encode_char.
  destruct (N.ltb_spec c 0x80) as [H1 | H1].
  { intros [= <-]. cbn [app utf8_scan]. rewrite to_N_byte_of by lia.
    now replace (c <? 0x80) with true by (symmetry; apply N.ltb_lt; lia). }
  destruct (N.ltb_spec c 0x800) as [H2 | H2].
  { intros [= <-]. cbn [app].
    apply (scan_two _ _ _ (0xC0 + c / 64) (0x80 + c mod 64)).
    - apply to_N_byte_of. divlia.
    - apply to_N_byte_of. divlia.
    - divlia.
    - divlia.
    - divlia. }
  destruct ((0xD800 <=? c) && (c <=? 0xDFFF)) eqn:Hs; [discriminate|].
  assert (Hns : c < 0xD800 \/ 0xDFFF < c).
  { apply andb_false_iff in Hs as [Hs | Hs];
      [left; now apply N.leb_gt in Hs | right; now apply N.leb_gt in Hs]. }
  clear Hs.
  destruct (N.ltb_spec c 0x10000) as [H3 | H3].
  { intros [= <-]. cbn [app].
    apply (scan_three _ _ _ _ (0xE0 + c / 4096)).
    - apply to_N_byte_of. divlia.
    - divlia.
    - unfold second_of_3. rewrite is_cont_byte by divlia.
      rewrite to_N_byte_of by divlia. cbn [andb].
      destruct (N.eqb_spec (0xE0 + c / 4096) 0xE0) as [He | He];
        [apply N.leb_le; divlia|].
      destruct (N.eqb_spec (0xE0 + c / 4096) 0xED) as [Hd | Hd];
        [apply N.leb_le; divlia | reflexivity].
    - apply is_cont_byte. divlia.
    - rewrite !low6_byte by divlia. divlia. }
  destruct (N.ltb_spec c 0x110000) as [H4 | H4]; [|discriminate].
  intros [= <-]. cbn [app].
  apply (scan_four _ _ _ _ _ (0xF0 + c / 262144)).
  - apply to_N_byte_of. divlia.
  - divlia.
  - unfold second_of_4. rewrite is_cont_byte by divlia.
    rewrite to_N_byte_of by divlia. cbn [andb].
    destruct (N.eqb_spec (0xF0 + c / 262144) 0xF0) as [He | He];
      [apply N.leb_le; divlia|].
    destruct (N.eqb_spec (0xF0 + c / 262144) 0xF4) as [Hd | Hd];
      [apply N.leb_le; divlia | reflexivity].
  - apply is_cont_byte. divlia.
  - apply is_cont_byte. divlia.
  - rewrite !low6_byte by divlia. divlia.
Qed.

Lemma utf8_scan_encode s data :
  utf8_encode s = Ok data -> utf8_scan data = map Some s.
Proof.
  revert data. induction s as [|c s IH]; intros data; simpl.
  - now intros [= <-].
  - destruct (utf8_encode_char c) as [bs|] eqn:Hc; [|discriminate].
    destruct (utf8_encode s) as [r|e]; [|discriminate].
    intros [= <-]. rewrite (utf8_scan_encoded c bs r Hc). now rewrite (IH r).
Qed.

(** What [encode('utf-8')] made, [decode('utf-8')] reads back, with any
    error handler. *)
Lemma utf8_decode_encode e s data :
  utf8_encode s = Ok data -> utf8_decode e data = Ok s.
Proof.
  intros Henc. unfold utf8_decode. rewrite (utf8_scan_encode s data Henc).
  apply handle_all_some.
Qed.

(** ** Paths *)

Lemma split_app c a b : split c (a ++ c :: b) = split c a ++ split c b.
Proof.
  induction a as [|x a IH]; simpl.
  - now rewrite N.eqb_refl.
  - destruct (x =? c); [now rewrite IH|].
    rewrite IH. pose proof (split_not_nil c a) as Hn.
    now destruct (split c a).
Qed.

Lemma split_without c s : ~ In c s -> split c s = [s].
Proof.
  induction s as [|x s IH]; intros Hn; [reflexivity|].
  simpl. destruct (N.eqb_spec x c) as [->|_]; [exfalso; apply Hn; now left|].
  rewrite IH; [reflexivity | intros Hin; apply Hn; now right].
Qed.

Lemma slash : lit "/" = [47].
Proof. reflexivity. Qed.

(** X3. The folder that [write_docx] and [_write_text_file] make sure of
    is the path up to its last slash; a path without a slash has none,
    and no folder is asked for. *)
Theorem parent_folder_of_path (folder name : str) :
  ~ In 47 name ->
  parent_folder (folder ++ lit "/" ++ name) = folder /\
  parent_folder name = [].
Proof.
  intros Hn. unfold parent_folder, but_last. rewrite slash. split.
  - change (folder ++ [47] ++ name) with (folder ++ 47 :: name).
    rewrite split_app, (split_without 47 name Hn), removelast_last.
    apply join_split.
  - now rewrite (split_without 47 name Hn).
Qed.

Lemma parent_folder_of_path_witness :
  parent_folder (lit "anna/logs" ++ lit "/" ++ lit "log.txt") = lit "anna/logs" /\
  parent_folder (lit "log.txt") = [].
Proof.
  apply (parent_folder_of_path (lit "anna/logs") (lit "log.txt")).
  vm_compute. intuition discriminate.
Defined.

(** ** Making folders *)

Section Folders.

Context {W : Type} `{Env W}.

Lemma ensure_parts_skips_empty current_path parts w :
  ensure_parts current_path parts w
  = ensure_parts current_path (filter (fun part => truthy part = true) parts) w.
Proof.
  revert current_path w. induction parts as [|part rest IH]; intros cur w; [reflexivity|].
  destruct part as [|x part].
  - simpl. apply IH.
  - rewrite filter_cons_True by reflexivity.
    cbn [ensure_parts truthy negb].
    unfold bind. destruct (client_exists _ w) as [[present|e] w1]; [|reflexivity].
    destruct ((if negb present then client_mkdir _ else ret tt) w1) as [[[]|e] w2];
      [apply IH | reflexivity].
Qed.

(** X2. Empty parts of a path count for nothing: a slash at the front, a
    slash at the end and a doubled slash leave [ensure_folder_exists]
    doing what it does without them. *)
Theorem ensure_folder_exists_slashes (self : YandexDiskClient) (a b : str) (w : W) :
  ensure_folder_exists self (lit "/" ++ a ++ lit "/") w = ensure_folder_exists self a w /\
  ensure_folder_exists self (a ++ lit "//" ++ b) w
  = ensure_folder_exists self (a ++ lit "/" ++ b) w.
Proof.
  assert (Hsl2 : lit "//" = [47; 47]) by reflexivity.
  unfold ensure_folder_exists, try_except, bind. rewrite slash, Hsl2.
  split.
  - change ([47] ++ a ++ [47]) with ([] ++ 47 :: (a ++ 47 :: [])).
    rewrite split_app, split_app.
    rewrite ensure_parts_skips_empty, (ensure_parts_skips_empty _ (split 47 a)).
    rewrite !filter_app. simpl split.
    rewrite !filter_cons_False, !filter_nil, app_nil_r by discriminate.
    reflexivity.
  - change (a ++ [47; 47] ++ b) with (a ++ 47 :: ([] ++ 47 :: b)).
    change (a ++ [47] ++ b) with (a ++ 47 :: b).
    rewrite !split_app.
    rewrite ensure_parts_skips_empty,
      (ensure_parts_skips_empty _ (split 47 a ++ split 47 b)).
    rewrite !filter_app. simpl split.
    rewrite !filter_cons_False, !filter_nil by discriminate.
    reflexivity.
Qed.

Hypothesis reads_pure : reads_change_nothing.
Hypothesis mkdir_law : mkdir_adds.

Lemma exists_pure path w r w' : client_exists path w = (r, w') -> w' = w.
Proof. intros He. destruct (reads_pure path w) as [Hs _]. now rewrite He in Hs. Qed.

(** A run that succeeded leaves every path it asked about in place, and
    keeps what was in place. *)
Lemma ensure_parts_made current_path parts w w' :
  ensure_parts current_path parts w = (Ok tt, w') ->
  Forall (fun path => client_exists path w' = (Ok true, w')) (visited current_path parts) /\
  forall other, client_exists other w = (Ok true, w) ->
                client_exists other w' = (Ok true, w').
Proof.
  revert current_path w. induction parts as [|part rest IH]; intros cur w Hrun.
  - injection Hrun as <-. split; [constructor | auto].
  - destruct part as [|x part]; [apply (IH cur w Hrun)|].
    cbn [ensure_parts visited truthy negb] in *.
    set (next := cur ++ lit "/" ++ x :: part) in *.
    apply bind_ok in Hrun as (present & w1 & Hex & Hrun).
    apply bind_ok in Hrun as ([] & w2 & Hmk & Hrun).
    pose proof (exists_pure _ _ _ _ Hex) as ->.
    destruct (IH next w2 Hrun) as [Hall Hkeep].
    assert (Hstep : client_exists next w2 = (Ok true, w2) /\
                    forall other, client_exists other w = (Ok true, w) ->
                                  client_exists other w2 = (Ok true, w2)).
    { destruct present; simpl in Hmk.
      - injection Hmk as <-. auto.
      - apply mkdir_law in Hmk. exact Hmk. }
    destruct Hstep as [Hnext Hkeep2]. split.
    + constructor; [now apply Hkeep | exact Hall].
    + intros other Ho. now apply Hkeep, Hkeep2.
Qed.

(** Where every path asked about is in place, nothing is made. *)
Lemma ensure_parts_nothing_to_do current_path parts w :
  Forall (fun path => client_exists path w = (Ok true, w)) (visited current_path parts) ->
  ensure_parts current_path parts w = (Ok tt, w).
Proof.
  revert current_path. induction parts as [|part rest IH]; intros cur Hall; [reflexivity|].
  destruct part as [|x part]; [apply (IH cur Hall)|].
  cbn [ensure_parts visited truthy negb] in *.
  inversion Hall as [|? ? Hex Hrest]; subst.
  rewrite (bind_step _ _ _ _ _ Hex). simpl.
  unfold bind at 1. unfold ret at 1. now apply IH.
Qed.

(** X1. [ensure_folder_exists] can be called again: after a call that
    returned [True] every folder on the way is there, and a second call
    returns [True] and leaves the disk as it is, making nothing. The
    disk keeps the folders it has, and asking changes nothing. *)
Theorem ensure_folder_exists_again (self : YandexDiskClient) (remote_path : str) (w w' : W) :
  ensure_folder_exists self remote_path w = (Ok true, w') ->
  Forall (fun path => client_exists path w' = (Ok true, w'))
    (visited (lit "/" ++ root_folder self) (split 47 remote_path)) /\
  ensure_folder_exists self remote_path w' = (Ok true, w').
Proof.
  intros Hrun. unfold ensure_folder_exists in Hrun. apply try_except_true in Hrun.
  apply bind_ok in Hrun as ([] & w1 & Hparts & Hret). injection Hret as <-.
  apply ensure_parts_made in Hparts as [Hall _]. split; [exact Hall|].
  unfold ensure_folder_exists. apply try_except_ok.
  now rewrite (bind_step _ _ _ _ _ (ensure_parts_nothing_to_do _ _ _ Hall)).
Qed.

End Folders.

Lemma mem_mkdir_adds : mkdir_adds (W := Mem).
Proof.
  intros path m m' Hmk. simpl in *. unfold mem_mkdir in Hmk.
  destruct (nodes m !! path) as [n|] eqn:Hp; [discriminate|].
  destruct (is_folder m (parent path)); [|discriminate].
  injection Hmk as <-. unfold mem_exists, with_nodes. simpl. split.
  - now rewrite lookup_insert_eq.
  - intros other Ho. destruct (decide (path = other)) as [<-|Hne].
    + now rewrite lookup_insert_eq.
    + rewrite lookup_insert_ne by exact Hne.
      destruct (nodes m !! other); [reflexivity | discriminate].
Qed.

Lemma ensure_folder_exists_again_witness :
  let w' := snd (ensure_folder_exists XLog (lit "anna/logs/2024/03/15") w_docs) in
  nodes w_docs !! lit "/XLog/anna/logs" = None /\
  nodes w' !! lit "/XLog/anna/logs/2024/03/15" = Some Folder /\
  ensure_folder_exists XLog (lit "anna/logs/2024/03/15") w' = (Ok true, w').
Proof.
  intro w'. split; [vm_compute; reflexivity|]. split; [vm_compute; reflexivity|].
  refine (proj2 (ensure_folder_exists_again mem_reads_change_nothing mem_mkdir_adds
                   XLog (lit "anna/logs/2024/03/15") w_docs w' _)).
  vm_compute. reflexivity.
Defined.

(** ** Exceptions *)

Lemma try_except_returns {W A} (body : M W A) (handler : exn -> M W A) :
  (forall e, returns (handler e)) -> returns (try_except body handler).
Proof.
  intros Hh w. unfold try_except.
  destruct (body w) as [[a|e] w1]; [simpl; eauto | apply Hh].
Qed.

Lemma ret_returns {W A} (a : A) : returns (ret (W := W) a).
Proof. intros w. simpl. eauto. Qed.

Lemma fallback_decode_returns raw path : exists o, _fallback_decode raw path = Ok o.
Proof.
  unfold _fallback_decode.
  destruct (fallback_loop encodings raw) as [[s|e]|] eqn:Hl; eauto.
  - exfalso. unfold encodings in Hl. simpl fallback_loop in Hl.
    destruct (decode_strict utf_8 raw) as [[s Hu]|Hu]; simpl in Hu; rewrite Hu in Hl;
      [discriminate|].
    destruct (decode_strict windows_1251 raw) as [[s Hw]|Hw]; simpl in Hw; rewrite Hw in Hl;
      [discriminate|].
    destruct (koi8_r_total raw) as [s Hk]. simpl in Hk. rewrite Hk in Hl. discriminate.
  - now destruct (fallback_loop_returns raw).
Qed.

Section NeverRaises.

Context {W : Type} `{Env W}.

Lemma read_each_returns self profile_name names (files : FilesDict) :
  returns (read_each self profile_name names files).
Proof.
  revert files. induction names as [|name rest IH]; intros files w; [simpl; eauto|].
  cbn [read_each].
  rewrite (bind_step _ _ _ _ _ (read_one_binds self profile_name name files w)).
  apply IH.
Qed.

(** X4. No method of the two classes lets an exception out, whatever
    the disk, the document library and the detector do, but for the
    constructor and for [get_recent_messages] and [build_context]. *)
Theorem methods_never_raise (client : YandexDiskClient) (self : ProfileManager)
    (path content profile_name key role : str) (timestamp : datetime) (raw : bytes) :
  returns (ensure_folder_exists client path) /\
  returns (read_docx client path) /\
  returns (write_docx client path content) /\
  returns (_read_text_file client path) /\
  returns (_write_text_file client path content) /\
  returns (read_file client path) /\
  returns (write_file client path content) /\
  returns (list_files client path) /\
  (exists o, _fallback_decode raw path = Ok o) /\
  returns (get_profile_files self profile_name) /\
  returns (save_profile_file self profile_name key content) /\
  returns (save_message self profile_name role content timestamp) /\
  returns (read_profile_file self profile_name key) /\
  returns (add_to_library self profile_name content).
Proof.
  assert (Hrd : returns (read_docx client path))
    by (apply try_except_returns; intros; apply ret_returns).
  assert (Hrt : returns (_read_text_file client path))
    by (apply try_except_returns; intros; apply ret_returns).
  assert (Hwd : forall c p, returns (write_docx c p content))
    by (intros; apply try_except_returns; intros; apply ret_returns).
  assert (Hwt : forall c p, returns (_write_text_file c p content))
    by (intros; apply try_except_returns; intros; apply ret_returns).
  assert (Hwf : forall c p, returns (write_file c p content))
    by (intros; unfold write_file; destruct (endswith _ _); auto).
  repeat match goal with |- _ /\ _ => split end; auto;
    try (apply try_except_returns; intros; apply ret_returns).
  - unfold read_file. destruct (endswith _ _); auto.
  - apply fallback_decode_returns.
  - apply read_each_returns.
  - apply Hwf.
Qed.

(** ** A disk out of reach *)

Hypothesis down : disk_down.

Lemma exists_down path w : exists e, client_exists path w = (Raise e, w).
Proof. apply (down path w). Qed.

Lemma upload_down data path w : exists e, client_upload data path w = (Raise e, w).
Proof. destruct (down path w) as (_ & _ & _ & Hup & _). apply Hup. Qed.

Lemma ensure_folder_exists_down self path w :
  exists b, ensure_folder_exists self path w = (Ok b, w).
Proof.
  unfold ensure_folder_exists, try_except, bind.
  generalize (lit "/" ++ root_folder self). generalize (split 47 path).
  intros parts. induction parts as [|part rest IH]; intros cur.
  - simpl. eauto.
  - destruct part as [|x part]; [apply IH|].
    cbn [ensure_parts truthy negb]. unfold bind.
    destruct (exists_down (cur ++ lit "/" ++ x :: part) w) as [e ->]. simpl. eauto.
Qed.

Lemma read_file_down self path w : read_file self path w = (Ok None, w).
Proof.
  destruct (exists_down (full_path_of self path) w) as [e He].
  unfold read_file. destruct (endswith _ _).
  - unfold read_docx, try_except. now rewrite (bind_raise _ _ _ _ _ He).
  - unfold _read_text_file, try_except. now rewrite (bind_raise _ _ _ _ _ He).
Qed.

Lemma write_file_down self path content w : write_file self path content w = (Ok false, w).
Proof.
  assert (Hfolder : forall folder,
            ((if truthy folder
              then ensure_folder_exists self folder ;;; ret tt
              else ret tt) w) = (Ok tt, w)).
  { intros folder. destruct (truthy folder); [|reflexivity].
    destruct (ensure_folder_exists_down self folder w) as [b Hb].
    now rewrite (bind_step _ _ _ _ _ Hb). }
  unfold write_file, write_docx, _write_text_file, try_except.
  destruct (endswith _ _).
  - rewrite (bind_step _ _ _ _ _ (Hfolder _)).
    unfold bind, lift. destruct (Document_save _) as [blob|e]; [|reflexivity].
    now destruct (upload_down blob (full_path_of self path) w) as [e ->].
  - rewrite (bind_step _ _ _ _ _ (Hfolder _)).
    unfold bind, lift. destruct (text_mode_bytes content) as [data|e]; [|reflexivity].
    now destruct (upload_down data (full_path_of self path) w) as [e ->].
Qed.

Lemma read_one_down self profile_name file_name (files : FilesDict) w :
  read_one self profile_name file_name files w
  = (Ok (<[key_of file_name := Some []]> files), w).
Proof.
  rewrite read_one_binds. cbv zeta. now rewrite read_file_down.
Qed.

(** X5. With the disk out of reach every method gives its answer for
    nothing there and changes nothing: a read gives [None], a write
    [False], a listing the empty list, and the files of a profile are
    five empty strings. *)
Theorem disk_down_answers (client : YandexDiskClient) (self : ProfileManager)
    (path content profile_name : str) (w : W) :
  read_file client path w = (Ok None, w) /\
  write_file client path content w = (Ok false, w) /\
  list_files client path w = (Ok [], w) /\
  exists files : FilesDict,
    get_profile_files self profile_name w = (Ok files, w) /\
    forall key, key ∈ profile_keys -> dict_get files key = Some [].
Proof.
  split; [apply read_file_down|]. split; [apply write_file_down|]. split.
  - unfold list_files, try_except, bind.
    now destruct (exists_down (full_path_of client path) w) as [e ->].
  - unfold get_profile_files, PROFILE_FILES. cbn [read_each].
    do 5 (rewrite (bind_step _ _ _ _ _ (read_one_down _ _ _ _ _)); cbv beta).
    eexists. split; [reflexivity|].
    intros key Hkey. unfold dict_get.
    match goal with |- context [?m !! key] => destruct (m !! key) as [v|] eqn:Hv end.
    + unfold FilesDict, str, char in *.
      repeat (apply lookup_insert_Some in Hv as [[_ <-] | [_ Hv]]; [reflexivity|]).
      now rewrite lookup_empty in Hv.
    + exfalso. apply not_elem_of_dom in Hv. apply Hv.
      unfold FilesDict, str, char in *.
      rewrite !dom_insert_L, dom_empty_L.
      unfold profile_keys in Hkey.
      replace (key_of (lit "key.docx")) with (lit "key") by (vm_compute; reflexivity).
      replace (key_of (lit "king.docx")) with (lit "king") by (vm_compute; reflexivity).
      replace (key_of (lit "rules.docx")) with (lit "rules") by (vm_compute; reflexivity).
      replace (key_of (lit "library.docx")) with (lit "library") by (vm_compute; reflexivity).
      replace (key_of (lit "welcome.docx")) with (lit "welcome") by (vm_compute; reflexivity).
      rewrite !elem_of_cons, elem_of_nil in Hkey.
      rewrite !elem_of_union, !elem_of_singleton, elem_of_empty. tauto.
Qed.

End NeverRaises.

Lemma down_env_is_down : @disk_down unit down_env.
Proof. intros path []. simpl. unfold raise. repeat split; eauto. Qed.

Lemma disk_down_answers_witness :
  @read_file unit down_env XLog (lit "anna/king.docx") tt = (Ok None, tt) /\
  @write_file unit down_env XLog (lit "anna/king.docx") two_lines tt = (Ok false, tt).
Proof.
  pose proof (@disk_down_answers unit down_env down_env_is_down XLog manager
                (lit "anna/king.docx") two_lines (lit "anna") tt) as (Hr & Hw & _).
  split; assumption.
Defined.

(** ** One file of a profile *)

Lemma profile_keys_of_files : map key_of PROFILE_FILES = profile_keys.
Proof. vm_compute. reflexivity. Qed.

Section OneFile.

Context {W : Type} `{Env W}.

(** The loop binds the key of every file to a string and leaves the
    other keys as they are. *)
Lemma read_each_binds self profile_name names :
  forall (files : FilesDict) w,
  exists (files' : FilesDict) w',
    read_each self profile_name names files w = (Ok files', w') /\
    forall key,
      (key ∈ map key_of names -> exists text, files' !! key = Some (Some text)) /\
      (key ∉ map key_of names -> files' !! key = files !! key).
Proof.
  induction names as [|name rest IH]; intros files w.
  - exists files, w. split; [reflexivity|]. intros key. split; [|reflexivity].
    simpl. now rewrite elem_of_nil.
  - cbn [read_each].
    rewrite (bind_step _ _ _ _ _ (read_one_binds self profile_name name files w)).
    cbv beta zeta.
    match goal with |- context [read_each _ _ _ ?f ?w1] =>
      destruct (IH f w1) as (files' & w' & Hrun & Hkeys) end.
    exists files', w'. split; [exact Hrun|].
    intros key. cbn [map]. rewrite elem_of_cons.
    destruct (decide (key ∈ map key_of rest)) as [Hin | Hout].
    + split; [intros _; now apply Hkeys | tauto].
    + destruct (Hkeys key) as [_ Hsame]. rewrite (Hsame Hout).
      unfold FilesDict, str, char in *. split.
      * intros [-> | Hin]; [|contradiction]. rewrite lookup_insert_eq. eauto.
      * intros Hno. apply lookup_insert_ne. intros Heq. apply Hno. now left.
Qed.

(** X13. [read_profile_file] answers with a string for each of the five
    keys and with [None] for every other key, and never raises. *)
Theorem read_profile_file_keys (self : ProfileManager) (profile_name key : str) (w : W) :
  (key ∈ profile_keys ->
     exists text w', read_profile_file self profile_name key w = (Ok (Some text), w')) /\
  (key ∉ profile_keys ->
     exists w', read_profile_file self profile_name key w = (Ok None, w')).
Proof.
  unfold read_profile_file, get_profile_files.
  destruct (read_each_binds self profile_name PROFILE_FILES ∅ w)
    as (files & w' & Hrun & Hkeys).
  rewrite profile_keys_of_files in Hkeys.
  split; intros Hkey.
  - destruct (proj1 (Hkeys key) Hkey) as [text Htext].
    exists text, w'. apply try_except_ok.
    rewrite (bind_step _ _ _ _ _ Hrun). unfold ret, dict_get. now rewrite Htext.
  - exists w'. apply try_except_ok.
    rewrite (bind_step _ _ _ _ _ Hrun). unfold ret, dict_get.
    rewrite (proj2 (Hkeys key) Hkey). unfold FilesDict, str, char.
    now rewrite lookup_empty.
Qed.

End OneFile.

(** ** Reading and the world *)

(** X16. Reading writes nothing: where asking the disk whether a path
    exists and downloading leave the world as it is, so do [read_file],
    [get_profile_files] and [read_profile_file]. *)
Theorem reading_changes_nothing {W : Type} `{Env W} (client : YandexDiskClient)
    (self : ProfileManager) (path profile_name key : str) (w : W) :
  reads_change_nothing ->
  snd (read_file client path w) = w /\
  snd (get_profile_files self profile_name w) = w /\
  snd (read_profile_file self profile_name key w) = w.
Proof.
  intros Hpure.
  destruct (get_profile_files_library Hpure self profile_name w) as (files & Hf & _).
  split; [now apply read_file_pure|]. split; [now rewrite Hf|].
  unfold read_profile_file, try_except. now rewrite (bind_step _ _ _ _ _ Hf).
Qed.

Lemma reading_changes_nothing_witness :
  snd (get_profile_files manager (lit "anna") (w_rules_on 15)) = w_rules_on 15.
Proof.
  apply (reading_changes_nothing XLog manager (lit "anna/rules.docx") (lit "anna")
           (lit "rules") (w_rules_on 15) mem_reads_change_nothing).
Defined.

(** ** The log tail, for every limit *)

Lemma join_drop_suffix sep k (l : list str) :
  exists front, join sep l = front ++ join sep (drop k l).
Proof.
  revert l. induction k as [|k IH]; intros l; [exists []; reflexivity|].
  destruct l as [|p rest]; [exists []; reflexivity|].
  destruct (IH rest) as [front Hfront]. cbn [drop].
  destruct rest as [|q rest].
  - exists p. rewrite drop_nil. simpl. now rewrite app_nil_r.
  - exists (p ++ sep ++ front). rewrite join_cons by discriminate.
    rewrite Hfront. now rewrite <- !app_assoc.
Qed.

Lemma split_pieces c s : Forall (fun piece => ~ In c piece) (split c s).
Proof.
  induction s as [|x s IH]; simpl; [repeat constructor; auto|].
  destruct (N.eqb_spec x c) as [->|Hne]; [constructor; auto|].
  destruct (split c s) as [|p ps]; [repeat constructor; simpl; intuition|].
  inversion IH as [|? ? Hp Hps]; subst. constructor; [|exact Hps].
  simpl. intros [?|?]; [congruence | auto].
Qed.

Lemma split_join c (l : list str) :
  l <> [] -> Forall (fun piece => ~ In c piece) l -> split c (join [c] l) = l.
Proof.
  induction l as [|p rest IH]; intros Hne Hall; [congruence|].
  inversion Hall as [|? ? Hp Hrest]; subst.
  destruct rest as [|q rest].
  - simpl. now apply split_without.
  - rewrite join_cons by discriminate.
    change (p ++ [c] ++ join [c] (q :: rest)) with (p ++ c :: join [c] (q :: rest)).
    rewrite split_app, (split_without c p Hp), IH by (auto; discriminate).
    reflexivity.
Qed.

(** For a [limit] of 0 or less the slice [lines[-limit:]] starts at line
    [-limit] from the front. *)
Lemma last_messages_not_positive text limit :
  (limit <= 0)%Z ->
  last_messages text limit
  = join nl (drop (Z.to_nat (- limit)) (split 10 (strip text))).
Proof.
  intros Hle. unfold last_messages, slice_from.
  set (lines := split 10 (strip text)).
  assert (Hlen : (0 < length lines)%nat).
  { pose proof (split_not_nil 10 (strip text)) as Hn. fold lines in Hn.
    destruct lines; [congruence | simpl; lia]. }
  replace (Z.of_nat (length lines) >? limit)%Z with true
    by (symmetry; apply Z.gtb_lt; lia).
  replace (- limit <? 0)%Z with false by (symmetry; apply Z.ltb_ge; lia).
  f_equal.
  destruct (Z.le_gt_cases (- limit) (Z.of_nat (length lines))) as [Hin | Hout].
  - now rewrite Z.min_l by lia.
  - rewrite Z.min_r by lia. rewrite Nat2Z.id.
    rewrite drop_all. symmetry. apply drop_ge. lia.
Qed.

Lemma last_messages_suffix text limit :
  exists front, strip text = front ++ last_messages text limit.
Proof.
  destruct (Z.lt_ge_cases 0 limit) as [Hpos | Hle].
  - rewrite last_messages_positive by assumption. unfold last_lines, lastn.
    destruct (join_drop_suffix nl
                (length (split 10%N (strip text)) - Z.to_nat limit)%nat
                (split 10 (strip text))) as [front Hfront].
    exists front. rewrite <- Hfront. unfold nl. now rewrite join_split.
  - rewrite last_messages_not_positive by assumption.
    destruct (join_drop_suffix nl (Z.to_nat (- limit)) (split 10 (strip text)))
      as [front Hfront].
    exists front. rewrite <- Hfront. unfold nl. now rewrite join_split.
Qed.

Lemma last_messages_count text limit :
  (0 < limit)%Z ->
  (length (split 10%N (last_messages text limit)) <= Z.to_nat limit)%nat.
Proof.
  intros Hpos. rewrite last_messages_positive by assumption.
  unfold last_lines, nl.
  pose proof (split_not_nil 10 (strip text)) as Hne.
  pose proof (split_pieces 10 (strip text)) as Hall.
  set (lines := split 10 (strip text)) in *.
  rewrite split_join.
  - rewrite lastn_length. lia.
  - intros Hnil. apply (f_equal (@length str)) in Hnil.
    rewrite lastn_length in Hnil. destruct lines; [congruence | simpl in Hnil; lia].
  - unfold lastn. apply Forall_drop. exact Hall.
Qed.

Section Tail.

Context {W : Type} `{Env W}.

(** What [get_recent_messages] returns, for every [limit], when the day
    before is a day of the month. *)
Lemma get_recent_messages_found self profile_name limit w w1 w2 today now yesterday :
  datetime_now w = (Ok today, w1) ->
  datetime_now w1 = (Ok now, w2) ->
  replace_day now (day today - 1) = Ok yesterday ->
  let found := found_log self profile_name today yesterday w2 in
  get_recent_messages self profile_name limit w =
    (Ok (if truthy (fst found) then last_messages (fst found) limit else []), snd found).
Proof.
  intros Ht Hn Hy found. unfold get_recent_messages.
  rewrite (bind_step _ _ _ _ _ Ht), (bind_step _ _ _ _ _ Hn).
  unfold lift at 1. unfold bind at 1. rewrite Hy.
  unfold found, found_log. cbv zeta.
  destruct (_read_text_file_returns (disk self) (log_path_of profile_name today) w2)
    as [c1 H1].
  unfold bind at 1.
  destruct (_read_text_file (disk self) (log_path_of profile_name today) w2) as [r1 wt].
  cbn [snd] in H1. injection H1 as ->. cbn [fst snd].
  assert (Hsecond :
    (content <- _read_text_file (disk self) (log_path_of profile_name yesterday) ;;
     match content with
     | Some ((_ :: _) as text) => ret (last_messages text limit)
     | _ => ret []
     end) wt
    = (let yesterdays :=
         _read_text_file (disk self) (log_path_of profile_name yesterday) wt in
       (Ok (if truthy (content_or_empty (fst yesterdays))
            then last_messages (content_or_empty (fst yesterdays)) limit else []),
        snd yesterdays))).
  { destruct (_read_text_file_returns (disk self) (log_path_of profile_name yesterday) wt)
      as [c2 H2].
    cbv zeta. unfold bind.
    destruct (_read_text_file (disk self) (log_path_of profile_name yesterday) wt)
      as [r2 wy].
    cbn [snd] in H2. injection H2 as ->. cbn [fst snd].
    now destruct c2 as [[|y text]|]. }
  destruct c1 as [[|x text]|]; cbn [truthy_opt content_or_empty truthy negb];
    cbv beta zeta in *.
  - rewrite Hsecond. reflexivity.
  - reflexivity.
  - rewrite Hsecond. reflexivity.
Qed.

(** X11. Whatever the [limit], what [get_recent_messages] returns is an
    end piece of the log it found, stripped of the whitespace at its two
    ends: nothing is added and nothing reordered. For a positive [limit]
    it has [limit] lines at most. *)
Theorem get_recent_messages_end_piece (self : ProfileManager) (profile_name : str)
    (limit : Z) (w w1 w2 : W) (today now yesterday : datetime) :
  datetime_now w = (Ok today, w1) ->
  datetime_now w1 = (Ok now, w2) ->
  replace_day now (day today - 1) = Ok yesterday ->
  exists recent w',
    get_recent_messages self profile_name limit w = (Ok recent, w') /\
    (exists front,
       strip (fst (found_log self profile_name today yesterday w2)) = front ++ recent) /\
    ((0 < limit)%Z -> (length (split 10%N recent) <= Z.to_nat limit)%nat).
Proof.
  intros Ht Hn Hy.
  rewrite (get_recent_messages_found self profile_name limit w w1 w2 today now yesterday
             Ht Hn Hy). cbv zeta.
  destruct (found_log self profile_name today yesterday w2) as [found w'].
  cbn [fst snd]. eexists. exists w'. split; [reflexivity|].
  destruct found as [|x found]; cbn [truthy].
  - split; [exists []; reflexivity|]. intros Hpos. simpl. lia.
  - split; [apply last_messages_suffix | apply last_messages_count].
Qed.

(** X17. A [limit] of 0 does not give an empty tail: the slice
    [lines[-0:]] is the whole list, so all of the stripped log comes
    back; and a negative [limit] of [-k] gives the log without its first
    [k] lines. *)
Theorem get_recent_messages_without_limit (self : ProfileManager) (profile_name : str)
    (limit : Z) (w w1 w2 : W) (today now yesterday : datetime) :
  datetime_now w = (Ok today, w1) ->
  datetime_now w1 = (Ok now, w2) ->
  replace_day now (day today - 1) = Ok yesterday ->
  (limit <= 0)%Z ->
  let found := found_log self profile_name today yesterday w2 in
  get_recent_messages self profile_name limit w
  = (Ok (join nl (drop (Z.to_nat (- limit)) (split 10 (strip (fst found))))), snd found) /\
  (limit = 0%Z ->
   get_recent_messages self profile_name limit w = (Ok (strip (fst found)), snd found)).
Proof.
  intros Ht Hn Hy Hle found.
  rewrite (get_recent_messages_found self profile_name limit w w1 w2 today now yesterday
             Ht Hn Hy). cbv zeta. fold found.
  assert (Hres : (if truthy (fst found) then last_messages (fst found) limit else [])
                 = join nl (drop (Z.to_nat (- limit)) (split 10 (strip (fst found))))).
  { destruct (fst found) as [|x text] eqn:Hf; cbn [truthy].
    - destruct (Z.to_nat (- limit)) as [|k]; [reflexivity|].
      change (split 10 (strip [])) with [[] : str]. cbn [drop]. now rewrite drop_nil.
    - now apply last_messages_not_positive. }
  rewrite Hres. split; [reflexivity|].
  intros ->. change (Z.to_nat (- 0)) with 0%nat. rewrite drop_0.
  unfold nl. now rewrite join_split.
Qed.

End Tail.

Lemma get_recent_messages_end_piece_witness :
  exists recent w',
    get_recent_messages manager (lit "anna") 2 (w_with_log five_lines) = (Ok recent, w') /\
    (exists front, strip five_lines = front ++ recent) /\
    (length (split 10%N recent) <= 2)%nat.
Proof.
  set (w := w_with_log five_lines).
  assert (Hclock : datetime_now w = (Ok (clock w), w)) by reflexivity.
  assert (Hday : replace_day (clock w) (day (clock w) - 1)
                 = Ok (at_time 2024 3 14 10 20 30)) by reflexivity.
  destruct (get_recent_messages_end_piece manager (lit "anna") 2 w w w
              (clock w) (clock w) (at_time 2024 3 14 10 20 30)
              Hclock Hclock Hday) as (recent & w' & Hrun & Hend & Hcount).
  exists recent, w'. split; [exact Hrun|]. split.
  - replace (fst (found_log manager (lit "anna") (clock w) (at_time 2024 3 14 10 20 30) w))
      with five_lines in Hend by (vm_compute; reflexivity).
    exact Hend.
  - apply Hcount. lia.
Defined.

Lemma get_recent_messages_without_limit_witness :
  get_recent_messages manager (lit "anna") 0 (w_with_log five_lines)
  = (Ok (strip five_lines), w_with_log five_lines).
Proof.
  set (w := w_with_log five_lines).
  assert (Hclock : datetime_now w = (Ok (clock w), w)) by reflexivity.
  assert (Hday : replace_day (clock w) (day (clock w) - 1)
                 = Ok (at_time 2024 3 14 10 20 30)) by reflexivity.
  destruct (get_recent_messages_without_limit manager (lit "anna") 0 w w w
              (clock w) (clock w) (at_time 2024 3 14 10 20 30)
              Hclock Hclock Hday ltac:(lia)) as [_ Hzero].
  rewrite (Hzero eq_refl). vm_compute. reflexivity.
Defined.

(** ** The days on which the context can be built *)

Section Days.

Context {W : Type} `{Env W}.

(** X10. When the clock shows a date of the calendar,
    [get_recent_messages] and [build_context] raise on the first day of
    the month and on no other day. Reading the disk and the clock changes
    nothing. *)
Theorem raises_on_first_day_only (self : ProfileManager) (profile_name : str)
    (limit : Z) (d : datetime) (w : W) :
  reads_change_nothing ->
  datetime_now w = (Ok d, w) ->
  valid_day d ->
  (day d = 1%Z /\
   fst (get_recent_messages self profile_name limit w) = Raise ValueError /\
   fst (build_context self profile_name limit w) = Raise ValueError)
  \/
  (day d <> 1%Z /\
   (exists recent, fst (get_recent_messages self profile_name limit w) = Ok recent) /\
   (exists context, fst (build_context self profile_name limit w) = Ok context)).
Proof.
  intros Hpure Hclock [Hlow Hhigh].
  destruct (get_profile_files_library Hpure self profile_name w) as (files & Hrun & _).
  destruct (Z.eq_dec (day d) 1%Z) as [Hfirst | Hlater].
  - left. split; [exact Hfirst|].
    pose proof (get_recent_messages_first_day self profile_name limit w d d w w
                  Hclock Hclock Hfirst) as Hraise.
    split; [now rewrite Hraise|].
    now rewrite (build_context_raises self profile_name limit w files w ValueError w
                   Hrun Hraise).
  - right. split; [exact Hlater|].
    assert (Hday : replace_day d (day d - 1)
                   = Ok {| year := year d; month := month d; day := day d - 1;
                           hour := hour d; minute := minute d; second := second d |}).
    { unfold replace_day.
      replace (1 <=? day d - 1)%Z with true by (symmetry; apply Z.leb_le; lia).
      replace (day d - 1 <=? days_in_month (year d) (month d))%Z with true
        by (symmetry; apply Z.leb_le; lia).
      reflexivity. }
    pose proof (get_recent_messages_found self profile_name limit w w w d d _
                  Hclock Hclock Hday) as Hfound.
    cbv zeta in Hfound. split.
    + rewrite Hfound. simpl. eauto.
    + rewrite (build_context_sections self profile_name limit w files w _ _
                 Hrun Hfound).
      simpl. eauto.
Qed.

(** X12. Where it returns, [build_context] returns the empty string in
    one case only: [king], [rules] and [library] are empty and there
    are no recent messages. *)
Theorem build_context_empty (self : ProfileManager) (profile_name : str) (limit : Z)
    (w w1 w2 : W) (files : FilesDict) (recent : str) :
  get_profile_files self profile_name w = (Ok files, w1) ->
  get_recent_messages self profile_name limit w1 = (Ok recent, w2) ->
  (fst (build_context self profile_name limit w) = Ok [] <->
   dict_item files (lit "king") = [] /\ dict_item files (lit "rules") = [] /\
   dict_item files (lit "library") = [] /\ recent = []).
Proof.
  intros Hf Hr.
  rewrite (build_context_sections self profile_name limit w files w1 recent w2 Hf Hr).
  cbn [fst]. unfold section_of.
  destruct (dict_item files (lit "king")) as [|a king];
    destruct (dict_item files (lit "rules")) as [|b rules];
    destruct (dict_item files (lit "library")) as [|c library];
    destruct recent as [|e recent]; cbn [truthy app];
    (split; [intros Hj | intros (Hk & Hu & Hl & Hc); try discriminate; reflexivity]);
    try (repeat split; reflexivity);
    exfalso; revert Hj;
    repeat match goal with
           | |- context [join nl (?p :: ?q :: ?r)] =>
               rewrite (join_cons nl p (q :: r)) by discriminate
           end;
    cbn [join]; vm_compute; discriminate.
Qed.

End Days.

Lemma raises_on_first_day_only_witness :
  exists context, fst (build_context manager (lit "anna") 10 (w_rules_on 15)) = Ok context.
Proof.
  destruct (raises_on_first_day_only manager (lit "anna") 10 (clock (w_rules_on 15))
              (w_rules_on 15) mem_reads_change_nothing)
    as [(Hfirst & _) | (_ & _ & Hctx)].
  - reflexivity.
  - unfold valid_day. vm_compute. split; discriminate.
  - discriminate Hfirst.
  - exact Hctx.
Defined.

Lemma build_context_empty_witness :
  fst (build_context manager (lit "anna") 10 w_docs) = Ok [].
Proof.
  refine (proj2 (build_context_empty manager (lit "anna") 10 w_docs w_docs w_docs
                   (returned_files (get_profile_files manager (lit "anna") w_docs)) []
                   _ _) _).
  - vm_compute. reflexivity.
  - vm_compute. reflexivity.
  - vm_compute. auto.
Defined.

(** ** Saving a file of a profile and reading it *)

Section SaveAndRead.

Context {W : Type} `{Env W}.

Hypothesis reads_pure : reads_change_nothing.

(** With reads that change nothing, every file of the profile is read
    in the one world, and its key holds what was read. *)
Lemma read_each_pure self profile_name names :
  NoDup (map key_of names) ->
  forall (files : FilesDict) w,
  exists files' : FilesDict,
    read_each self profile_name names files w = (Ok files', w) /\
    (forall name, name ∈ names ->
       files' !! key_of name =
         Some (Some (content_or_empty
                       (fst (read_file (disk self)
                               (profile_name ++ lit "/" ++ name) w))))) /\
    (forall key, key ∉ map key_of names -> files' !! key = files !! key).
Proof.
  induction names as [|name rest IH]; intros Hnd files w.
  - exists files. split; [reflexivity|]. split; [|reflexivity].
    intros name Hin. now apply elem_of_nil in Hin.
  - cbn [map] in Hnd. apply NoDup_cons in Hnd as [Hfresh Hnd].
    cbn [read_each].
    rewrite (bind_step _ _ _ _ _ (read_one_pure reads_pure self profile_name name files w)).
    cbv beta.
    match goal with |- context [read_each _ _ _ ?f w] =>
      destruct (IH Hnd f w) as (files' & Hrun & Hread & Hother) end.
    exists files'. split; [exact Hrun|]. unfold FilesDict, str, char in *. split.
    + intros name' Hin. apply elem_of_cons in Hin as [-> | Hin]; [|now apply Hread].
      rewrite (Hother _ Hfresh). apply lookup_insert_eq.
    + intros key Hout. cbn [map] in Hout. rewrite not_elem_of_cons in Hout.
      destruct Hout as [Hne Hout]. rewrite (Hother _ Hout).
      now apply lookup_insert_ne.
Qed.

Hypothesis disk_faithful : stores_faithfully.

(** X14. What [save_profile_file] saved under one of the five keys is
    what [read_profile_file] reads under that key afterwards, the empty
    text too. The disk keeps what is uploaded, reading changes nothing
    and the document format keeps the paragraphs of the text. *)
Theorem save_then_read_profile_file (self : ProfileManager)
    (profile_name key text : str) (w w' : W) :
  key ∈ profile_keys ->
  keeps_paragraphs (split 10 text) ->
  save_profile_file self profile_name key text w = (Ok true, w') ->
  read_profile_file self profile_name key w' = (Ok (Some text), w').
Proof.
  intros Hkey Hdoc Hsave.
  assert (Hname : key ++ lit ".docx" ∈ PROFILE_FILES /\ key_of (key ++ lit ".docx") = key).
  { unfold profile_keys in Hkey. rewrite !elem_of_cons, elem_of_nil in Hkey.
    destruct Hkey as [-> | [-> | [-> | [-> | [-> | []]]]]];
      (split; [apply list_elem_of_In; vm_compute; auto 10 | vm_compute; reflexivity]). }
  destruct Hname as [Hin Hkeyof].
  unfold save_profile_file, write_file in Hsave.
  rewrite docx_path_ends_like_docx in Hsave.
  apply write_docx_uploaded in Hsave as (blob & w1 & Hblob & Hup).
  apply disk_faithful in Hup as [Hex Hdl].
  pose proof (read_docx_stored (disk self) _ blob (split 10 text) w' Hex Hdl
                (Hdoc blob Hblob)) as Hread.
  unfold nl in Hread. rewrite join_split in Hread.
  assert (Hnd : NoDup (map key_of PROFILE_FILES)).
  { rewrite profile_keys_of_files. vm_compute.
    repeat constructor; rewrite ?list_elem_of_In; simpl; intuition discriminate. }
  destruct (read_each_pure self profile_name PROFILE_FILES Hnd ∅ w')
    as (files & Hrun & Hfiles & _).
  unfold read_profile_file, get_profile_files. apply try_except_ok.
  rewrite (bind_step _ _ _ _ _ Hrun). unfold ret, dict_get.
  rewrite <- Hkeyof at 1. rewrite (Hfiles _ Hin).
  unfold read_file. rewrite docx_path_ends_like_docx. now rewrite Hread.
Qed.

(** A document that is on the disk and cannot be opened reads as
    nothing. *)
Lemma read_docx_unreadable self path blob e w :
  client_exists (full_path_of self path) w = (Ok true, w) ->
  client_download (full_path_of self path) w = (Ok blob, w) ->
  Document_open blob = Raise e ->
  read_docx self path w = (Ok None, w).
Proof.
  intros Hex Hdl Hopen. unfold read_docx, try_except.
  rewrite (bind_step _ _ _ _ _ Hex). simpl.
  rewrite (bind_step _ _ _ _ _ Hdl).
  unfold lift, bind, ret. now rewrite Hopen.
Qed.

(** X15. After [add_to_library] returned [True] the library reads as the
    text that [read_docx] gave for it before, a blank line, the marker
    line with the time, and the new text; and as the new text alone when
    [read_docx] gave no text or the empty text before. The second is
    also what becomes of a library that is on the disk and cannot be
    opened as a document: what it held is replaced by the new text. The
    disk keeps what is uploaded, reading changes nothing and the
    document format keeps the paragraphs of the text written. *)
Theorem add_to_library_result (self : ProfileManager) (profile_name text : str)
    (w wc w' : W) (now : datetime) :
  datetime_now w = (Ok now, wc) ->
  let new_content :=
    match fst (read_docx (disk self) (library_path profile_name) w) with
    | Ok (Some ((_ :: _) as current)) =>
        current ++ nl ++ nl ++ lit "[" ++ strftime (lit "%Y-%m-%d %H:%M:%S") now
        ++ lit "] ДОБАВЛЕНО:" ++ nl ++ text
    | _ => text
    end in
  keeps_paragraphs (split 10 new_content) ->
  add_to_library self profile_name text w = (Ok true, w') ->
  read_docx (disk self) (library_path profile_name) w' = (Ok (Some new_content), w') /\
  (forall blob e,
     client_exists (full_path_of (disk self) (library_path profile_name)) w = (Ok true, w) ->
     client_download (full_path_of (disk self) (library_path profile_name)) w = (Ok blob, w) ->
     Document_open blob = Raise e ->
     new_content = text).
Proof.
  intros Hnow new_content Hdoc Hadd.
  pose proof (add_to_library_once reads_pure disk_faithful self profile_name text w w'
                now wc Hnow) as Honce.
  cbv zeta in Honce. subst new_content. split.
  - revert Hdoc Honce.
    destruct (fst (read_docx (disk self) (library_path profile_name) w))
      as [[[|c current]|]|e];
      cbn [content_or_empty truthy]; unfold added_block;
      intros Hdoc Honce; now apply Honce.
  - intros blob e Hex Hdl Hopen.
    now rewrite (read_docx_unreadable _ _ blob e w Hex Hdl Hopen).
Qed.

End SaveAndRead.

Lemma standin_keeps text : @keeps_paragraphs Mem mem_env (split 10 text).
Proof.
  intros blob Hsave. simpl in *. unfold standin_save in Hsave.
  unfold nl in Hsave. rewrite join_split in Hsave.
  destruct (utf8_encode text) as [data|e] eqn:Henc; [|discriminate].
  injection Hsave as <-. unfold standin_open, signature. cbn [app].
  now rewrite (utf8_decode_encode Strict text data Henc).
Qed.

Lemma save_then_read_profile_file_witness :
  let w' := snd (save_profile_file manager (lit "anna") (lit "welcome") cyrillic_note w_docs) in
  read_profile_file manager (lit "anna") (lit "welcome") w' = (Ok (Some cyrillic_note), w').
Proof.
  intro w'.
  apply (save_then_read_profile_file mem_reads_change_nothing mem_stores_faithfully
           manager (lit "anna") (lit "welcome") cyrillic_note w_docs w').
  - apply list_elem_of_In. vm_compute. auto 10.
  - apply standin_keeps.
  - vm_compute. reflexivity.
Defined.

Lemma add_to_library_result_witness :
  let w' := snd (add_to_library manager (lit "anna") fact_b w_broken_library) in
  read_docx XLog (library_path (lit "anna")) w' = (Ok (Some fact_b), w').
Proof.
  intro w'.
  destruct (add_to_library_result mem_reads_change_nothing mem_stores_faithfully
              manager (lit "anna") fact_b w_broken_library w_broken_library w'
              (clock w_broken_library) eq_refl) as [Hread _].
  - apply standin_keeps.
  - vm_compute. reflexivity.
  - exact Hread.
Defined.

(** ** Plain text of any kind *)

Lemma utf8_encode_raises s e : utf8_encode s = Raise e -> e = UnicodeEncodeError.
Proof.
  induction s as [|c s IH]; simpl; [discriminate|].
  destruct (utf8_encode_char c); destruct (utf8_encode s) as [r|x];
    intros [= <-]; auto.
Qed.

Lemma utf8_encode_surrogate s c :
  In c s -> surrogate c -> utf8_encode s = Raise UnicodeEncodeError.
Proof.
  intros Hin [Hlow Hhigh]. induction s as [|x s IH]; [contradiction|].
  simpl. destruct Hin as [-> | Hin].
  - unfold utf8_encode_char.
    replace (c <? 0x80) with false by (symmetry; apply N.ltb_ge; lia).
    replace (c <? 0x800) with false by (symmetry; apply N.ltb_ge; lia).
    replace (0xD800 <=? c) with true by (symmetry; apply N.leb_le; lia).
    replace (c <=? 0xDFFF) with true by (symmetry; apply N.leb_le; lia).
    reflexivity.
  - rewrite (IH Hin). now destruct (utf8_encode_char x).
Qed.

Section AnyText.

Context {W : Type} `{Env W}.

Lemma as_written_keeps content c : In c content -> c <> 10 -> In c (as_written content).
Proof.
  intros Hin Hc. unfold as_written. apply in_flat_map. exists c. split; [exact Hin|].
  destruct (N.eqb_spec c 10); [contradiction | now left].
Qed.

(** X6. A text of any characters written to a path of the plain-text
    kind comes back, where [charset_normalizer] is not installed, as it
    was put into the file (each newline as [os.linesep]) less a
    byte-order mark at its start. The disk keeps what is uploaded. *)
Theorem text_round_trip_any (self : YandexDiskClient) (path T : str) (w w' : W) :
  stores_faithfully ->
  charset_best = None ->
  ~ ends_like_docx path ->
  write_file self path T w = (Ok true, w') ->
  read_file self path w' = (Ok (Some (strip_bom (as_written T))), w').
Proof.
  intros Hdisk Hnone Hpath Hw.
  rewrite <- lower_ends_docx in Hpath. apply not_true_is_false in Hpath.
  unfold write_file in Hw. unfold read_file. rewrite Hpath in *.
  apply write_text_uploaded in Hw as (data & w1 & Hdata & Hup).
  unfold text_mode_bytes in Hdata. fold (as_written T) in Hdata.
  apply Hdisk in Hup as [Hex Hdl].
  unfold _read_text_file. apply try_except_ok.
  rewrite (bind_step _ _ _ _ _ Hex). simpl.
  rewrite (bind_step _ _ _ _ _ Hdl).
  unfold detect. rewrite Hnone.
  unfold lift, _fallback_decode, encodings. cbn [fallback_loop decode].
  now rewrite (utf8_decode_encode Strict _ data Hdata).
Qed.

(** X7. A text with a surrogate in it cannot be written as plain text:
    [write_file] returns [False], and the world is as making the folder
    left it, with nothing uploaded. *)
Theorem write_surrogate_fails (self : YandexDiskClient) (path content : str)
    (c : char) (w : W) :
  In c content ->
  surrogate c ->
  ~ ends_like_docx path ->
  write_file self path content w =
    (Ok false,
     if truthy (parent_folder path)
     then snd (ensure_folder_exists self (parent_folder path) w)
     else w).
Proof.
  intros Hin Hsur Hpath.
  rewrite <- lower_ends_docx in Hpath. apply not_true_is_false in Hpath.
  unfold write_file. rewrite Hpath. unfold _write_text_file, try_except.
  assert (Henc : text_mode_bytes content = Raise UnicodeEncodeError).
  { unfold text_mode_bytes. apply (utf8_encode_surrogate _ c); [|exact Hsur].
    apply (as_written_keeps content c Hin). destruct Hsur. lia. }
  destruct (truthy (parent_folder path)).
  - destruct (ensure_folder_exists_returns self (parent_folder path) w) as [b Hb].
    rewrite (bind_step _ _ _ _ _ (bind_step _ _ _ _ _ Hb)).
    unfold lift, bind, ret. now rewrite Henc.
  - unfold lift, bind, ret. now rewrite Henc.
Qed.

End AnyText.

Lemma text_round_trip_any_witness :
  let w' := snd (write_file XLog (lit "anna/notes.txt") cyrillic_note w_docs) in
  read_file XLog (lit "anna/notes.txt") w' = (Ok (Some cyrillic_note), w').
Proof.
  intro w'.
  pose proof (text_round_trip_any XLog (lit "anna/notes.txt") cyrillic_note w_docs w'
                mem_stores_faithfully eq_refl) as Hback.
  replace (strip_bom (as_written cyrillic_note)) with cyrillic_note in Hback
    by (vm_compute; reflexivity).
  apply Hback.
  - rewrite <- lower_ends_docx. vm_compute. discriminate.
  - vm_compute. reflexivity.
Defined.

Lemma write_surrogate_fails_witness :
  fst (write_file XLog (lit "anna/notes.txt") [104; 0xD800; 105] w_docs) = Ok false.
Proof.
  rewrite (write_surrogate_fails XLog (lit "anna/notes.txt") [104; 0xD800; 105]
             0xD800 w_docs).
  - reflexivity.
  - simpl. auto.
  - unfold surrogate. lia.
  - rewrite <- lower_ends_docx. vm_compute. discriminate.
Defined.

(** ** Which encoding the fallback takes *)

Lemma cp1251_byte b :
  charmap_scan cp1251_table [b]
  = [if Byte.eqb b x98 then None
     else Some (nth (N.to_nat (Byte.to_N b)) cp1251_table UNDEFINED)].
Proof. destruct b; vm_compute; reflexivity. Qed.

Lemma cp1251_strict raw :
  if readable_1251 raw
  then exists s, decode windows_1251 Strict raw = Ok s
  else decode windows_1251 Strict raw = Raise UnicodeDecodeError.
Proof.
  unfold decode, charmap_decode.
  induction raw as [|b raw IH]; [simpl; eauto|].
  change (charmap_scan cp1251_table (b :: raw))
    with (charmap_scan cp1251_table [b] ++ charmap_scan cp1251_table raw).
  rewrite cp1251_byte. cbn [readable_1251 forallb].
  destruct (Byte.eqb b x98); cbn [negb andb app handle]; [reflexivity|].
  fold (readable_1251 raw). destruct (readable_1251 raw).
  - destruct IH as [s ->]. eauto.
  - now rewrite IH.
Qed.

(** X8. Of the five encodings the fallback decoder takes UTF-8 where the
    bytes are UTF-8, else Windows-1251 unless a byte [98] is among
    them, and KOI8-R only then; it never comes to CP866 or to
    ISO-8859-5. *)
Theorem fallback_decode_choice (raw : bytes) (path : str) :
  _fallback_decode raw path =
    Ok (Some (strip_bom
                (match utf8_decode Strict raw with
                 | Ok text => text
                 | Raise _ =>
                     if readable_1251 raw
                     then text_of (decode windows_1251 Strict raw)
                     else text_of (decode koi8_r Strict raw)
                 end))) /\
  (readable_1251 raw = true -> exists text, decode windows_1251 Strict raw = Ok text) /\
  (exists text, decode koi8_r Strict raw = Ok text).
Proof.
  pose proof (cp1251_strict raw) as H1251.
  destruct (koi8_r_total raw) as [k Hk].
  split; [|split; [|eauto]].
  - unfold _fallback_decode, encodings. cbn [fallback_loop].
    destruct (decode_strict utf_8 raw) as [[s Hu] | Hu]; rewrite Hu;
      cbn [decode] in Hu; rewrite Hu; [reflexivity|].
    destruct (readable_1251 raw).
    + destruct H1251 as [s Hs]. now rewrite Hs.
    + rewrite H1251, Hk. reflexivity.
  - intros Hr. now rewrite Hr in H1251.
Qed.

(** ** The path of a log *)

Lemma pow10_succ k : 10 ^ N.of_nat (S k) = 10 * 10 ^ N.of_nat k.
Proof. rewrite Nat2N.inj_succ. apply N.pow_succ_r'. Qed.

Lemma digits_rev_value fuel n :
  n < 10 ^ N.of_nat fuel -> value_rev (digits_rev fuel n) = n.
Proof.
  revert n. induction fuel as [|fuel IH]; intros n Hn.
  - simpl in *. lia.
  - rewrite pow10_succ in Hn. cbn [digits_rev value_rev].
    destruct (N.ltb_spec n 10) as [Hs | Hl].
    + cbn [value_rev]. divlia.
    + rewrite IH by divlia. divlia.
Qed.

Lemma digits_rev_short fuel k n :
  n < 10 ^ N.of_nat (S k) -> (length (digits_rev fuel n) <= S k)%nat.
Proof.
  revert k n. induction fuel as [|fuel IH]; intros k n Hn; [simpl; lia|].
  cbn [digits_rev length].
  destruct (N.ltb_spec n 10) as [Hs | Hl]; [simpl; lia|].
  destruct k as [|k]; [simpl in Hn; lia|].
  rewrite pow10_succ in Hn.
  specialize (IH k (n / 10)). apply le_n_S, IH. divlia.
Qed.

Lemma decimal_fuel n : n < 10 ^ N.of_nat (S (N.to_nat (N.log2 n))).
Proof.
  rewrite Nat2N.inj_succ, N2Nat.id.
  destruct (N.eq_dec n 0) as [-> | Hn]; [reflexivity|].
  destruct (N.log2_spec n) as [_ Hup]; [lia|].
  apply (N.lt_le_trans _ _ _ Hup).
  apply N.pow_le_mono_l. lia.
Qed.

Lemma value_rev_zeros digits k : value_rev (digits ++ repeat 48 k) = value_rev digits.
Proof.
  induction digits as [|d digits IH]; simpl.
  - induction k as [|k IHk]; simpl; lia.
  - now rewrite IH.
Qed.

Lemma rev_repeat {A} (x : A) k : rev (repeat x k) = repeat x k.
Proof.
  induction k as [|k IH]; [reflexivity|].
  simpl. rewrite IH. clear IH. induction k as [|k IH]; [reflexivity|].
  simpl. now rewrite IH.
Qed.

Lemma number_of_padded width n : (0 <= n)%Z -> number_of (padded width n) = Z.to_N n.
Proof.
  intros _. unfold number_of, padded, zero_pad, decimal.
  rewrite rev_app_distr, rev_involutive, rev_repeat, value_rev_zeros.
  apply digits_rev_value, decimal_fuel.
Qed.

Lemma length_padded k n :
  (0 <= n)%Z -> Z.to_N n < 10 ^ N.of_nat (S k) -> length (padded (S k) n) = S k.
Proof.
  intros _ Hn. unfold padded, zero_pad, decimal.
  pose proof (digits_rev_short (S (N.to_nat (N.log2 (Z.to_N n)))) k (Z.to_N n) Hn).
  rewrite length_app, repeat_length, !length_rev. lia.
Qed.

Lemma padded_same k n m :
  (0 <= n)%Z -> (0 <= m)%Z -> padded k n = padded k m -> n = m.
Proof.
  intros Hn Hm Heq. apply (f_equal number_of) in Heq.
  rewrite !number_of_padded in Heq by assumption. lia.
Qed.

Lemma strftime_date d :
  strftime (lit "%Y/%m/%d") d
  = decimal (Z.to_N (year d)) ++ lit "/" ++ padded 2 (month d) ++ lit "/"
    ++ padded 2 (day d).
Proof.
  change (lit "%Y/%m/%d") with [37; 89; 47; 37; 109; 47; 37; 100].
  cbn [strftime N.eqb Pos.eqb]. unfold directive.
  cbn [N.eqb Pos.eqb]. rewrite slash. cbn [app]. now rewrite app_nil_r.
Qed.

(** A year below 1000 is written with the digits it has. *)
Example log_path_small_year :
  log_path_of (lit "anna") (at_time 5 1 2 0 0 0) = lit "anna/logs/5/01/02/log.txt".
Proof. vm_compute. reflexivity. Qed.

Lemma decimal_same n m : decimal n = decimal m -> n = m.
Proof.
  intros Heq. apply (f_equal (fun s => value_rev (rev s))) in Heq.
  unfold decimal in Heq. rewrite !rev_involutive in Heq.
  now rewrite !digits_rev_value in Heq by apply decimal_fuel.
Qed.

(** X9. Two dates have the same log exactly when they are the same day
    of the calendar: the time of day does not count, and no two days
    share a log. *)
Theorem log_path_same_day (profile_name : str) (d1 d2 : datetime) :
  calendar_date d1 -> calendar_date d2 ->
  (log_path_of profile_name d1 = log_path_of profile_name d2 <->
   year d1 = year d2 /\ month d1 = month d2 /\ day d1 = day d2).
Proof.
  intros (Hy1 & Hm1 & Hd1 & Hd1') (Hy2 & Hm2 & Hd2 & Hd2').
  assert (H31 : forall y m, (days_in_month y m <= 31)%Z).
  { intros y m. unfold days_in_month.
    destruct (m =? 2)%Z; [destruct (is_leap y); lia|].
    destruct ((m =? 4)%Z || (m =? 6)%Z || (m =? 9)%Z || (m =? 11)%Z); lia. }
  pose proof (H31 (year d1) (month d1)). pose proof (H31 (year d2) (month d2)).
  unfold log_path_of. cbv zeta. rewrite !strftime_date. split.
  - intros Heq.
    apply app_inv_head, app_inv_head in Heq.
    rewrite <- !app_assoc in Heq.
    assert (Hl2 : forall n, (0 <= n <= 99)%Z -> length (padded 2 n) = 2%nat)
      by (intros n Hn; apply length_padded; simpl; lia).
    assert (Hly : length (decimal (Z.to_N (year d1)))
                  = length (decimal (Z.to_N (year d2)))).
    { apply (f_equal (@length char)) in Heq.
      rewrite !length_app, !Hl2 in Heq by lia. lia. }
    destruct (app_inj_1 _ _ _ _ Hly Heq) as [Hy Heq1].
    apply app_inv_head in Heq1.
    assert (Hlm : length (padded 2 (month d1)) = length (padded 2 (month d2)))
      by (rewrite !Hl2 by lia; reflexivity).
    destruct (app_inj_1 _ _ _ _ Hlm Heq1) as [Hm Heq2].
    apply app_inv_head, app_inv_tail in Heq2.
    apply decimal_same in Hy.
    repeat split; [lia | |]; eapply padded_same; try eassumption; lia.
  - intros (-> & -> & ->). reflexivity.
Qed.

Lemma log_path_same_day_witness :
  log_path_of (lit "anna") (at_time 2024 3 15 10 20 30)
  = log_path_of (lit "anna") (at_time 2024 3 15 23 59 59).
Proof.
  apply (log_path_same_day (lit "anna") (at_time 2024 3 15 10 20 30)
           (at_time 2024 3 15 23 59 59)).
  - unfold calendar_date, valid_day. vm_compute. intuition discriminate.
  - unfold calendar_date, valid_day. vm_compute. intuition discriminate.
  - auto.
Defined.

(** X18. For a year of four digits [get_daily_log_path] gives the path
    that [save_message] and [get_recent_messages] make with [strftime]. *)
Theorem daily_log_path_agrees (profile_name : str) (d : datetime) :
  (1000 <= year d <= 9999)%Z ->
  get_daily_log_path profile_name d = log_path_of profile_name d.
Proof.
  intros _. unfold get_daily_log_path, log_path_of. cbv zeta.
  rewrite strftime_date. now rewrite <- !app_assoc.
Qed.

Lemma daily_log_path_agrees_witness :
  get_daily_log_path (lit "anna") (at_time 2024 3 5 10 20 30)
  = lit "anna/logs/2024/03/05/log.txt".
Proof.
  rewrite (daily_log_path_agrees (lit "anna") (at_time 2024 3 5 10 20 30)).
  - vm_compute. reflexivity.
  - simpl. lia.
Defined.

(** ** Paragraphs *)

Lemma split_count c s : length (split c s) = S (count_occ N.eq_dec s c).
Proof.
  induction s as [|x s IH]; [reflexivity|].
  cbn [split count_occ].
  destruct (N.eqb_spec x c) as [-> | Hne].
  - destruct (N.eq_dec c c); [|congruence]. simpl. now rewrite IH.
  - destruct (N.eq_dec x c); [congruence|].
    pose proof (split_not_nil c s) as Hn.
    destruct (split c s); [congruence | exact IH].
Qed.

Section Paragraphs.

Context {W : Type} `{Env W}.

(** X19. [write_docx] makes a paragraph of every line: the document it
    uploads has one paragraph more than the text has newlines, and no
    paragraph has a newline in it. *)
Theorem write_docx_paragraphs (self : YandexDiskClient) (path content : str) (w w' : W) :
  write_docx self path content w = (Ok true, w') ->
  exists paragraphs blob w1,
    Document_save paragraphs = Ok blob /\
    client_upload blob (full_path_of self path) w1 = (Ok tt, w') /\
    length paragraphs = S (count_occ N.eq_dec content 10) /\
    Forall (fun paragraph => ~ In 10 paragraph) paragraphs.
Proof.
  intros Hw. apply write_docx_uploaded in Hw as (blob & w1 & Hsave & Hup).
  exists (split 10 content), blob, w1.
  repeat split; auto using split_count, split_pieces.
Qed.

(** X20. A document that is read and written back keeps its paragraphs
    when none of them has a line break in it; one without paragraphs
    comes back with a single empty paragraph. *)
Theorem read_then_write_docx (self : YandexDiskClient) (path : str)
    (paragraphs : list str) (w w' : W) :
  Forall (fun paragraph => ~ In 10 paragraph) paragraphs ->
  write_docx self path (join nl paragraphs) w = (Ok true, w') ->
  exists blob w1,
    Document_save (match paragraphs with [] => [[]] | _ => paragraphs end) = Ok blob /\
    client_upload blob (full_path_of self path) w1 = (Ok tt, w').
Proof.
  intros Hall Hw. apply write_docx_uploaded in Hw as (blob & w1 & Hsave & Hup).
  exists blob, w1. split; [|exact Hup].
  destruct paragraphs as [|p rest]; [exact Hsave|].
  unfold nl in Hsave. now rewrite split_join in Hsave by (auto; discriminate).
Qed.

(** X21. A file that is there and empty reads as the empty string, not
    as [None], whether [charset_normalizer] is installed or not. *)
Theorem read_empty_text_file (self : YandexDiskClient) (path : str) (w w1 w2 : W) :
  client_exists (full_path_of self path) w = (Ok true, w1) ->
  client_download (full_path_of self path) w1 = (Ok [], w2) ->
  _read_text_file self path w = (Ok (Some []), w2).
Proof.
  intros Hex Hdl. unfold _read_text_file. apply try_except_ok.
  rewrite (bind_step _ _ _ _ _ Hex). simpl.
  rewrite (bind_step _ _ _ _ _ Hdl).
  unfold detect. now destruct charset_best.
Qed.

End Paragraphs.

Lemma write_docx_paragraphs_witness :
  exists paragraphs blob w1,
    Document_save paragraphs = Ok blob /\
    client_upload blob (full_path_of XLog (lit "anna/king.docx")) w1
    = (Ok tt, snd (write_docx XLog (lit "anna/king.docx") two_lines w_docs)) /\
    length paragraphs = 2%nat.
Proof.
  destruct (write_docx_paragraphs XLog (lit "anna/king.docx") two_lines w_docs
              (snd (write_docx XLog (lit "anna/king.docx") two_lines w_docs)))
    as (paragraphs & blob & w1 & Hsave & Hup & Hlen & _).
  - vm_compute. reflexivity.
  - exists paragraphs, blob, w1. repeat split; assumption.
Defined.

Lemma read_then_write_docx_witness :
  exists blob w1,
    Document_save [lit "first line"; lit "second line"] = Ok blob /\
    client_upload blob (full_path_of XLog (lit "anna/king.docx")) w1
    = (Ok tt, snd (write_docx XLog (lit "anna/king.docx") two_lines w_docs)).
Proof.
  apply (read_then_write_docx XLog (lit "anna/king.docx")
           [lit "first line"; lit "second line"] w_docs
           (snd (write_docx XLog (lit "anna/king.docx") two_lines w_docs))).
  - repeat constructor; vm_compute; intuition discriminate.
  - vm_compute. reflexivity.
Defined.

Lemma read_empty_text_file_witness :
  _read_text_file XLog (lit "anna/logs/2024/03/15/log.txt") (w_with_log [])
  = (Ok (Some []), w_with_log []).
Proof.
  apply (read_empty_text_file XLog (lit "anna/logs/2024/03/15/log.txt")
           (w_with_log []) (w_with_log []) (w_with_log []));
    vm_compute; reflexivity.
Defined.
